(** * Humidex sensor: a shallow embedding of [sensor.py]

    The development follows [custom_components/humidex_sensor/sensor.py].
    Python floats are read as real numbers: arithmetic is exact, [math.exp]
    is the real exponential and [round(x, 1)] rounds the real [x] to the
    nearest tenth, ties to the even tenth.  Strings that Python's [float]
    parses to a non-finite value (nan, inf) have no counterpart here.
    Exceptions the code can raise on reals (division by zero, a failed
    [float] conversion) are modelled with [option]; log calls and
    [async_write_ha_state] are collected in a list of effects. *)

From Stdlib Require Import Reals Lra Lia ZArith String Ascii List.
From stdpp Require Import gmap strings.

Open Scope R_scope.

(** ** Python primitives used by the sensor *)

Module Py.

(** Truthiness of a [str]: the empty string is falsy. *)
Definition truthy_str (s : string) : bool :=
  match s with
  | EmptyString => false
  | String _ _ => true
  end.

(** Truthiness of a [str | None]. *)
Definition truthy (o : option string) : bool :=
  match o with
  | None => false
  | Some s => truthy_str s
  end.

(** [a / b] on floats: [ZeroDivisionError] when [b] is zero. *)
Definition div (a b : R) : option R :=
  if Req_dec_T b 0 then None else Some (a / b).

(** Rounding of a real to the nearest integer, ties to even. *)
Definition round_half_even (y : R) : Z :=
  let f := Zfloor y in
  let d := y - IZR f in
  if Rlt_dec d (1 / 2) then f
  else if Rlt_dec (1 / 2) d then (f + 1)%Z
  else if Z.even f then f else (f + 1)%Z.

(** [round(x, ndigits)] for a non-negative [ndigits]. *)
Definition round (x : R) (ndigits : nat) : R :=
  IZR (round_half_even (x * 10 ^ ndigits)) / 10 ^ ndigits.

(** [lo <= x <= hi], Python's chained comparison. *)
Definition between (lo x hi : R) : bool :=
  if Rle_dec lo x then (if Rle_dec x hi then true else false) else false.

(** [s in ("unavailable", "unknown")]. *)
Definition in_unavailable_unknown (s : string) : bool :=
  String.eqb s "unavailable" || String.eqb s "unknown".

End Py.

(** ** A reader of plain decimal literals

    [float(s)] is a builtin; the engine below takes it as a parameter.
    [float_literal] agrees with it on the literals [[+-]digits[.digits]]
    and rejects every other string; it instantiates the parameter at
    concrete readings. *)

Definition digit_of (c : ascii) : option Z :=
  let n := N_of_ascii c in
  if ((48 <=? n) && (n <=? 57))%N then Some (Z.of_N n - 48)%Z else None.

Fixpoint digits_from (acc : Z) (s : string) : option (Z * string) :=
  match s with
  | EmptyString => Some (acc, EmptyString)
  | String c rest =>
      match digit_of c with
      | Some d => digits_from (acc * 10 + d)%Z rest
      | None => Some (acc, s)
      end
  end.

(** Mantissa and number of decimals of an unsigned literal. *)
Definition unsigned_literal (s : string) : option (Z * nat) :=
  match s with
  | EmptyString => None
  | String c _ =>
      match digit_of c with
      | None => None
      | Some _ =>
          match digits_from 0 s with
          | Some (i, EmptyString) => Some (i, 0%nat)
          | Some (i, String "." frac) =>
              match digits_from i frac with
              | Some (m, EmptyString) => Some (m, String.length frac)
              | _ => None
              end
          | _ => None
          end
      end
  end.

Definition signed_literal (s : string) : option (Z * nat) :=
  match s with
  | String "-" rest =>
      match unsigned_literal rest with
      | Some (m, k) => Some ((- m)%Z, k)
      | None => None
      end
  | String "+" rest => unsigned_literal rest
  | _ => unsigned_literal s
  end.

Definition float_literal (s : string) : option R :=
  match signed_literal s with
  | Some (m, O) => Some (IZR m)
  | Some (m, k) => Some (IZR m / 10 ^ k)
  | None => None
  end.

(** ** Constants *)

(** [const.py] *)
Definition DOMAIN : string := "humidex_sensor".

(** [homeassistant.const.UnitOfTemperature] *)
Module UnitOfTemperature.
Definition CELSIUS : string := "°C".
Definition FAHRENHEIT : string := "°F".
End UnitOfTemperature.

(** Modelled from the spec: [TemperatureConverter.convert] from Fahrenheit to
    Celsius is a Home Assistant helper whose code is not part of the
    repository; the specification gives it as the affine conversion
    [C = (F - 32) * 5/9]. *)
Definition TemperatureConverter_convert_F_to_C (fahrenheit : R) : R :=
  (fahrenheit - 32) * 5 / 9.

(** ** Data model *)

(** A [homeassistant.core.State]: the state string and its attributes. *)
Record State := mkState {
  state : string;
  attributes : gmap string string
}.

(** The state machine of [hass]: [hass.states.get(entity_id)] is a lookup. *)
Record HomeAssistant := mkHass {
  states : gmap string State
}.

(** The fields of [HumidexSensor] the update and the attributes read or
    write. *)
Record HumidexSensor := mkSensor {
  _temp_entity_id : string;
  _humidity_entity_id : string;
  _pressure_entity_id : option string;
  _attr_native_value : option R;
  _attr_available : bool;
  _translations : option (gmap string string)
}.

Inductive PyExc := ValueError | ZeroDivisionError.

Inductive LogLevel := DEBUG | WARNING | ERROR.

(** Arguments of a log call. *)
Inductive LogArg :=
| AStr (s : string)
| AFloat (x : R)
| AHPa (p : R)      (* the f-string [f"{pressure:.1f} hPa"] *)
| AExc (e : PyExc).

Inductive Effect :=
| Log (level : LogLevel) (fmt : string) (args : list LogArg)
| async_write_ha_state.

Definition is_warning (e : Effect) : bool :=
  match e with
  | Log WARNING _ _ => true
  | _ => false
  end.

(** ** Pure helpers of [HumidexSensor] *)

(** [_get_comfort_level], lines 155-166. *)
Definition _get_comfort_level (humidex : R) : string :=
  if Rlt_dec humidex 20 then "cold"
  else if Rle_dec humidex 29 then "comfortable"
  else if Rle_dec humidex 39 then "slightly_uncomfortable"
  else if Rle_dec humidex 45 then "very_uncomfortable"
  else "dangerous".

(** [_calculate_dew_point], lines 168-170. *)
Definition _calculate_dew_point (temperature humidity : R) : R :=
  temperature - ((100 - humidity) / 5).

(** [_calculate_vapor_pressure_standard], lines 172-182, in the real-number
    reading: [None] is the division by zero; the overflow and underflow of
    [math.exp] on doubles, which need a dew point below -273.15 degrees or
    within a fraction of a degree above it, are outside the model. *)
Definition _calculate_vapor_pressure_standard (temperature humidity : R)
  : option R :=
  let dew_point := _calculate_dew_point temperature humidity in
  q ← Py.div 1 (dew_point + 273.15);
  let exponent := 5417.7530 * ((1 / 273.15) - q) in
  let vapor_pressure := 6.11 * exp exponent in
  Some vapor_pressure.

(** [_calculate_vapor_pressure_enhanced], lines 184-195, in the real-number
    reading: [None] is the division by zero; the overflow of [math.exp] on
    doubles, which needs a temperature close to -237.3 degrees, is outside
    the model. *)
Definition _calculate_vapor_pressure_enhanced
  (temperature humidity pressure : R) : option R :=
  q ← Py.div (17.27 * temperature) (temperature + 237.3);
  let es := 6.1078 * exp q in
  let e := (humidity / 100.0) * es in
  let e_corrected := e * (pressure / 1013.25) in
  Some e_corrected.

(** [_convert_temperature_to_celsius], lines 197-203. *)
Definition _convert_temperature_to_celsius (temperature : R) (unit : string)
  : R :=
  if String.eqb unit UnitOfTemperature.FAHRENHEIT
  then TemperatureConverter_convert_F_to_C temperature
  else temperature.

(** [_validate_sensor_values], lines 205-231: the verdict and the warning it
    logs. *)
Definition _validate_sensor_values
  (temperature humidity : R) (pressure : option R) : bool * list Effect :=
  if negb (Py.between (-50) temperature 70) then
    (false,
     [Log WARNING "Temperature %.1f°C is outside valid range (-50°C to +70°C)"
        [AFloat temperature]])
  else if negb (Py.between 0 humidity 100) then
    (false,
     [Log WARNING "Humidity %.1f%% is outside valid range (0%% to 100%%)"
        [AFloat humidity]])
  else
    match pressure with
    | Some p =>
        if negb (Py.between 800 p 1200) then
          (false,
           [Log WARNING "Pressure %.1f hPa is outside valid range (800 to 1200 hPa)"
              [AFloat p]])
        else (true, [])
    | None => (true, [])
    end.

(** The English table of [_get_comfort_description_sync], lines 138-144. *)
Definition fallback_descriptions : gmap string string :=
  list_to_map
    [("cold", "Cold");
     ("comfortable", "Comfortable");
     ("slightly_uncomfortable", "Slightly uncomfortable");
     ("very_uncomfortable", "Very uncomfortable");
     ("dangerous", "Dangerous")].

(** [_get_comfort_description_sync], lines 123-145. *)
Definition _get_comfort_description_sync (self : HumidexSensor) (humidex : R)
  : string :=
  let comfort_level := _get_comfort_level humidex in
  let translated :=
    match _translations self with
    | Some tr =>
        if bool_decide (tr = ∅) then None
        else
          tr !! ("component." +:+ DOMAIN
                 +:+ ".entity.sensor.humidex.state_attributes.comfort_description."
                 +:+ comfort_level)
    | None => None
    end in
  match translated with
  | Some t =>
      if Py.truthy_str t then t
      else default "Unknown" (fallback_descriptions !! comfort_level)
  | None => default "Unknown" (fallback_descriptions !! comfort_level)
  end.

(** [extra_state_attributes], lines 101-121. *)
Definition extra_state_attributes (self : HumidexSensor) : gmap string string :=
  let attrs : gmap string string :=
    <["humidity_entity" := _humidity_entity_id self]>
      (<["temperature_entity" := _temp_entity_id self]> ∅) in
  let attrs :=
    match _pressure_entity_id self with
    | Some id =>
        if Py.truthy_str id then
          <["calculation_method" := "enhanced"]>
            (<["pressure_entity" := id]> attrs)
        else <["calculation_method" := "standard"]> attrs
    | None => <["calculation_method" := "standard"]> attrs
    end in
  match _attr_native_value self with
  | Some v =>
      <["comfort_description" := _get_comfort_description_sync self v]>
        (<["comfort_level" := _get_comfort_level v]> attrs)
  | None => attrs
  end.

(** Lines 334-348 of [_async_update_humidex]: the vapor pressure by the
    method the pressure selects, the humidex formula and the rounding.
    The result is the value stored in [_attr_native_value] and the
    [calculation_method] of the cycle; [None] is an exception raised on the
    way. The arithmetic is that of the reals: next to a rounding tie the
    tenth computed on doubles can be the neighbouring one. *)
Definition humidex_of_values (temperature humidity : R) (pressure : option R)
  : option (R * string) :=
  '(vapor_pressure, calculation_method) ←
    match pressure with
    | Some p =>
        vp ← _calculate_vapor_pressure_enhanced temperature humidity p;
        Some (vp, "enhanced")
    | None =>
        vp ← _calculate_vapor_pressure_standard temperature humidity;
        Some (vp, "standard")
    end;
  let humidex := temperature + 0.5555 * (vapor_pressure - 10) in
  Some (Py.round humidex 1, calculation_method).

(** The writes [_attr_native_value = None; _attr_available = False]. *)
Definition set_unavailable (self : HumidexSensor) : HumidexSensor :=
  mkSensor (_temp_entity_id self) (_humidity_entity_id self)
    (_pressure_entity_id self) None false (_translations self).

(** The writes of lines 348-349. *)
Definition set_value (self : HumidexSensor) (v : R) : HumidexSensor :=
  mkSensor (_temp_entity_id self) (_humidity_entity_id self)
    (_pressure_entity_id self) (Some v) true (_translations self).

(** The block repeated at each early return: mark the sensor unavailable,
    write the state, return. *)
Definition mark_unavailable (self : HumidexSensor) (logs : list Effect)
  : HumidexSensor * list Effect :=
  (set_unavailable self, logs ++ [async_write_ha_state]).

(** Lines 268-270: the pressure state is fetched when pressure is bound. *)
Definition fetch_pressure_state (self : HumidexSensor) (hass : HomeAssistant)
  : option State :=
  match _pressure_entity_id self with
  | Some id => if Py.truthy_str id then states hass !! id else None
  | None => None
  end.

(** Lines 301-305: an unavailable or unknown pressure is dropped, with a
    warning, instead of failing the cycle. *)
Definition drop_unavailable_pressure (self : HumidexSensor)
  (pressure_state : option State) : option State * list Effect :=
  match pressure_state with
  | Some ps =>
      if Py.truthy (_pressure_entity_id self)
         && Py.in_unavailable_unknown (state ps)
      then
        (None,
         [Log WARNING "Pressure entity '%s' is %s"
            [AStr (default EmptyString (_pressure_entity_id self));
             AStr (state ps)]])
      else (Some ps, [])
  | None => (None, [])
  end.

Section Engine.

(** The builtin [float] on a state string: [None] stands for [ValueError]. *)
Variable py_float : string -> option R.

(** Lines 308-313: the three conversions inside the inner [try]. *)
Definition parse_values (temp_state humidity_state : State)
  (pressure_state : option State) : option (R * R * option R) :=
  temperature_raw ← py_float (state temp_state);
  humidity ← py_float (state humidity_state);
  pressure ←
    match pressure_state with
    | Some ps =>
        if negb (Py.in_unavailable_unknown (state ps))
        then p ← py_float (state ps); Some (Some p)
        else Some None
    | None => Some None
    end;
  Some (temperature_raw, humidity, pressure).

(** Lines 323-355 and the outer [except Exception] of lines 357-363: the
    cycle once the three values are parsed. [log] holds what the cycle has
    logged so far. *)
Definition evaluate_values (self : HumidexSensor) (temp_state : State)
  (log : list Effect) (temperature_raw humidity : R) (pressure : option R)
  : HumidexSensor * list Effect :=
  let temp_unit :=
    default UnitOfTemperature.CELSIUS
      (attributes temp_state !! "unit_of_measurement") in
  let temperature :=
    _convert_temperature_to_celsius temperature_raw temp_unit in
  let '(valid, log_valid) :=
    _validate_sensor_values temperature humidity pressure in
  if negb valid then
    mark_unavailable self (log ++ log_valid)
  else
    match humidex_of_values temperature humidity pressure with
    | Some (value, calculation_method) =>
        (set_value self value,
         log ++ log_valid ++
         [Log DEBUG
            "Calculated humidex: %.1f°C using %s method (temp=%.1f°C, humidity=%.1f%%, pressure=%s)"
            [AFloat value; AStr calculation_method; AFloat temperature;
             AFloat humidity;
             match pressure with
             | Some p => if Req_dec_T p 0 then AStr "N/A" else AHPa p
             | None => AStr "N/A"
             end];
          async_write_ha_state])
    | None =>
        (set_unavailable self,
         log ++ log_valid ++
         [Log ERROR "Error calculating humidex: %s" [AExc ZeroDivisionError];
          async_write_ha_state])
    end.

(** [_async_update_humidex], lines 262-363: the sensor after the cycle and
    the effects of the cycle in order. *)
Definition _async_update_humidex (self : HumidexSensor) (hass : HomeAssistant)
  : HumidexSensor * list Effect :=
  let temp_state := states hass !! _temp_entity_id self in
  let humidity_state := states hass !! _humidity_entity_id self in
  let pressure_state := fetch_pressure_state self hass in
  match temp_state with
  | None =>
      mark_unavailable self
        [Log WARNING "Temperature entity '%s' not found"
           [AStr (_temp_entity_id self)]]
  | Some temp_state =>
  match humidity_state with
  | None =>
      mark_unavailable self
        [Log WARNING "Humidity entity '%s' not found"
           [AStr (_humidity_entity_id self)]]
  | Some humidity_state =>
  if Py.in_unavailable_unknown (state temp_state) then
    mark_unavailable self
      [Log WARNING "Temperature entity '%s' is %s"
         [AStr (_temp_entity_id self); AStr (state temp_state)]]
  else if Py.in_unavailable_unknown (state humidity_state) then
    mark_unavailable self
      [Log WARNING "Humidity entity '%s' is %s"
         [AStr (_humidity_entity_id self); AStr (state humidity_state)]]
  else
    let '(pressure_state, log_pressure) :=
      drop_unavailable_pressure self pressure_state in
    match parse_values temp_state humidity_state pressure_state with
    | None =>
        let pressure_str :=
          match pressure_state with
          | None => "N/A"
          | Some ps => state ps
          end in
        mark_unavailable self
          (log_pressure ++
           [Log ERROR
              "Invalid numeric values: temp=%s, humidity=%s, pressure=%s (%s)"
              [AStr (state temp_state); AStr (state humidity_state);
               AStr pressure_str; AExc ValueError]])
    | Some (temperature_raw, humidity, pressure) =>
        evaluate_values self temp_state log_pressure
          temperature_raw humidity pressure
    end
  end
  end.

End Engine.

(** ** Readings of a cycle, in the words of the specification *)

(** The [calculation_method] a cycle wrote to the debug log, when it
    computed a value. *)
Fixpoint logged_method (effects : list Effect) : option string :=
  match effects with
  | [] => None
  | Log DEBUG _ (_ :: AStr m :: _) :: _ => Some m
  | _ :: rest => logged_method rest
  end.

(** The Reading of an entity: its state when the entity exists and is
    neither unavailable nor unknown. *)
Definition usable_state (hass : HomeAssistant) (entity_id : string)
  : option State :=
  s ← states hass !! entity_id;
  if Py.in_unavailable_unknown (state s) then None else Some s.

(** The pressure Reading of a cycle: pressure is bound and its Reading is
    usable. *)
Definition usable_pressure_state (self : HumidexSensor) (hass : HomeAssistant)
  : option State :=
  match _pressure_entity_id self with
  | Some id => if Py.truthy_str id then usable_state hass id else None
  | None => None
  end.

Section Readings.

Variable py_float : string -> option R.

(** The temperature of a cycle in Celsius: present, numeric, converted. *)
Definition temperature_reading (self : HumidexSensor) (hass : HomeAssistant)
  : option R :=
  s ← usable_state hass (_temp_entity_id self);
  raw ← py_float (state s);
  Some (_convert_temperature_to_celsius raw
          (default UnitOfTemperature.CELSIUS
             (attributes s !! "unit_of_measurement"))).

(** The humidity of a cycle: present and numeric. *)
Definition humidity_reading (self : HumidexSensor) (hass : HomeAssistant)
  : option R :=
  s ← usable_state hass (_humidity_entity_id self);
  py_float (state s).

(** The pressure that contributes to a cycle: bound, present and numeric. *)
Definition pressure_reading (self : HumidexSensor) (hass : HomeAssistant)
  : option R :=
  s ← usable_pressure_state self hass;
  py_float (state s).

(** Temperature and humidity present, numeric and in range. *)
Definition required_in_range (self : HumidexSensor) (hass : HomeAssistant)
  : Prop :=
  (exists t, temperature_reading self hass = Some t /\ -50 <= t <= 70) /\
  (exists h, humidity_reading self hass = Some h /\ 0 <= h <= 100).

(** The availability condition as the specification words it: the required
    Readings are fine and any contributing pressure is in range. *)
Definition spec_available (self : HumidexSensor) (hass : HomeAssistant)
  : Prop :=
  required_in_range self hass /\
  (forall p, pressure_reading self hass = Some p -> 800 <= p <= 1200).

(** The availability condition of the code: a usable pressure Reading must
    also be numeric. *)
Definition readings_ok (self : HumidexSensor) (hass : HomeAssistant) : Prop :=
  required_in_range self hass /\
  (forall ps, usable_pressure_state self hass = Some ps ->
     exists p, py_float (state ps) = Some p /\ 800 <= p <= 1200).

End Readings.

(** The humidex formula on a vapor pressure, rounded to one decimal. *)
Definition humidex_formula (T e : R) : R := Py.round (T + 0.5555 * (e - 10)) 1.

(** The Standard vapor pressure of the specification. *)
Definition standard_vapor_pressure (T RH : R) : R :=
  let Td := T - (100 - RH) / 5 in
  6.11 * exp (5417.7530 * (1 / 273.15 - 1 / (Td + 273.15))).

(** The Enhanced vapor pressure of the specification. *)
Definition enhanced_vapor_pressure (T RH P : R) : R :=
  (RH / 100) * (6.1078 * exp (17.27 * T / (T + 237.3))) * (P / 1013.25).

(** ** Concrete sensors and snapshots *)

Definition reading_of (s : string) : State := mkState s ∅.

(** A sensor bound to temperature and humidity only. *)
Definition sensor_th : HumidexSensor :=
  mkSensor "sensor.t" "sensor.h" None None true None.

(** A sensor bound to temperature, humidity and pressure. *)
Definition sensor_thp : HumidexSensor :=
  mkSensor "sensor.t" "sensor.h" (Some "sensor.p") None true None.

(** Temperature and humidity report [t] and [h]; no pressure entity. *)
Definition hass_th (t h : string) : HomeAssistant :=
  mkHass (<["sensor.h" := reading_of h]> (<["sensor.t" := reading_of t]> ∅)).

(** Temperature, humidity and pressure report [t], [h] and [p]. *)
Definition hass_thp (t h p : string) : HomeAssistant :=
  mkHass (<["sensor.p" := reading_of p]> (states (hass_th t h))).

(** The sensor with its pressure binding removed. *)
Definition without_pressure (self : HumidexSensor) : HumidexSensor :=
  mkSensor (_temp_entity_id self) (_humidity_entity_id self) None
    (_attr_native_value self) (_attr_available self) (_translations self).

(** ** Fixed-point enclosures of the exponential

    [exp (a / b)] is enclosed by squaring [n] times an enclosure of
    [exp (a / (b * 2 ^ n))], on integers scaled by [scale], rounding down for
    the lower bound and up for the upper bound. *)

Definition scale : Z := 10 ^ 18.

Fixpoint sq_down (n : nat) (m : Z) : Z :=
  match n with
  | O => m
  | S k => sq_down k (m * m / scale)
  end.

Fixpoint sq_up (n : nat) (m : Z) : Z :=
  match n with
  | O => m
  | S k => sq_up k (m * m / scale + 1)
  end.

(** From [1 + y <= exp y]. *)
Definition exp_lower (a b : Z) (n : nat) : Z :=
  sq_down n (scale + a * scale / (b * 2 ^ Z.of_nat n)).

(** From [exp y <= 1 / (1 - y)] for [y < 1]. *)
Definition exp_upper (a b : Z) (n : nat) : Z :=
  let d := (b * 2 ^ Z.of_nat n)%Z in
  sq_up n (scale * d / (d - a) + 1).

(** The five comfort levels. *)
Definition comfort_levels : list string :=
  ["cold"; "comfortable"; "slightly_uncomfortable"; "very_uncomfortable";
   "dangerous"].

(** ** Setup and subscription of the sensor *)

(** [const.py] *)
Definition DEFAULT_NAME : string := "Humidex".
Definition ATTR_TEMPERATURE : string := "temperature_entity".
Definition ATTR_HUMIDITY : string := "humidity_entity".
Definition ATTR_PRESSURE : string := "pressure_entity".

(** [homeassistant.const.CONF_NAME] *)
Definition CONF_NAME : string := "name".

(** A config entry: its id and its data. *)
Record ConfigEntry := mkEntry {
  entry_id : string;
  data : gmap string string
}.

(** The exceptions of the setup and of the flows: a missing key of a dict
    and [vol.Invalid]. *)
Inductive Exception :=
| KeyError (key : string)
| Invalid (msg : string).

(** [_attr_device_info], lines 88-94. *)
Record DeviceInfo := mkDeviceInfo {
  identifiers : gset (string * string);
  name : string;
  manufacturer : string;
  model : string;
  sw_version : string
}.

(** The entity attributes [__init__] sets beside the fields of
    [HumidexSensor]. *)
Record EntityAttrs := mkEntityAttrs {
  _attr_name : string;
  _attr_unique_id : string;
  _attr_device_info : DeviceInfo
}.

(** [HumidexSensor.__init__], lines 63-99. [_attr_available] is not assigned
    there: it keeps the default of the entity class, true. *)
Definition HumidexSensor_init (config_entry : ConfigEntry)
  (name temp_entity_id humidity_entity_id : string)
  (pressure_entity_id : option string)
  : HumidexSensor * EntityAttrs * list Effect :=
  (mkSensor temp_entity_id humidity_entity_id pressure_entity_id None true None,
   mkEntityAttrs name (entry_id config_entry +:+ "_humidex")
     (mkDeviceInfo {[ (DOMAIN, entry_id config_entry) ]} name
        "Humidex Sensor" "Virtual Sensor" "1.0.0"),
   [Log DEBUG
      "Initialized Humidex sensor '%s' with temp=%s, humidity=%s, pressure=%s"
      [AStr name; AStr temp_entity_id; AStr humidity_entity_id;
       AStr (default "None" pressure_entity_id)]]).

(** [async_setup_entry], lines 25-51: the log, and either the exception or
    the entities handed to [async_add_entities] with its
    [update_before_add] flag. *)
Definition async_setup_entry (config_entry : ConfigEntry)
  : list Effect
    * (Exception + list (HumidexSensor * EntityAttrs) * bool) :=
  let log := [Log DEBUG "Setting up Humidex sensor from config entry" []] in
  let config := data config_entry in
  let name := default DEFAULT_NAME (config !! CONF_NAME) in
  match config !! ATTR_TEMPERATURE with
  | None => (log, inl (KeyError ATTR_TEMPERATURE))
  | Some temp_entity =>
      match config !! ATTR_HUMIDITY with
      | None => (log, inl (KeyError ATTR_HUMIDITY))
      | Some humidity_entity =>
          let pressure_entity := config !! ATTR_PRESSURE in
          let '(humidex_sensor, attrs, log_init) :=
            HumidexSensor_init config_entry name temp_entity humidity_entity
              pressure_entity in
          (log ++ log_init, inr ([(humidex_sensor, attrs)], true))
      end
  end.

(** [_get_translations], lines 147-153. [fetched] is what
    [translation.async_get_translations] answers; it is consulted only when
    the cache is empty. *)
Definition _get_translations (self : HumidexSensor)
  (fetched : gmap string string) : HumidexSensor * gmap string string :=
  match _translations self with
  | None =>
      (mkSensor (_temp_entity_id self) (_humidity_entity_id self)
         (_pressure_entity_id self) (_attr_native_value self)
         (_attr_available self) (Some fetched),
       fetched)
  | Some t => (self, t)
  end.

(** Lines 241-243 of [async_added_to_hass]: the entities whose state changes
    trigger a cycle. *)
Definition entities_to_track (self : HumidexSensor) : list string :=
  [_temp_entity_id self; _humidity_entity_id self]
  ++ match _pressure_entity_id self with
     | Some id => if Py.truthy_str id then [id] else []
     | None => []
     end.

Section Subscription.

Variable py_float : string -> option R.

(** [async_added_to_hass], lines 233-254: the sensor after the translations
    are loaded and the first cycle has run, the entities it subscribed to,
    and the effects of the first cycle. *)
Definition async_added_to_hass (self : HumidexSensor) (hass : HomeAssistant)
  (fetched : gmap string string)
  : HumidexSensor * list string * list Effect :=
  let '(self, _) := _get_translations self fetched in
  let tracked := entities_to_track self in
  let '(self, effects) := _async_update_humidex py_float self hass in
  (self, tracked, effects).

End Subscription.

Definition is_error (e : Effect) : bool :=
  match e with
  | Log ERROR _ _ => true
  | _ => false
  end.

Definition is_log (e : Effect) : bool :=
  match e with
  | Log _ _ _ => true
  | async_write_ha_state => false
  end.

(** ** The config flow and the options flow ([config_flow.py]) *)

(** The value a schema field accepts: [str] or an entity selector. *)
Inductive FieldType :=
| TStr
| TEntitySelector (domain device_class : string).

(** A key of a [vol.Schema]: [vol.Required] or [vol.Optional], with its
    default when it has one. *)
Record SchemaField := mkField {
  required : bool;
  key : string;
  default_value : option string;
  field_type : FieldType
}.

Inductive ConfigFlowResult :=
| async_create_entry (title : string) (data : gmap string string)
| async_show_form (step_id : string) (data_schema : list SchemaField)
    (errors : gmap string string).

(** [_LOGGER.exception(fmt, exc)]. *)
Inductive FlowLog :=
| LogException (fmt : string) (exc : Exception).

Module HumidexConfigFlow.

Section Flow.

Variable py_float : string -> option R.

(** Lines 94-102 of [_validate_input]: the pressure entity, when one is
    given, exists and has a numeric state. *)
Definition check_pressure (hass : HomeAssistant)
  (pressure_entity : option string) : Exception + unit :=
  match pressure_entity with
  | Some id =>
      if Py.truthy_str id then
        match states hass !! id with
        | None => inl (Invalid ("Pressure entity " +:+ id +:+ " not found"))
        | Some pressure_state =>
            match py_float (state pressure_state) with
            | Some _ => inr tt
            | None =>
                inl (Invalid ("Pressure entity " +:+ id
                              +:+ " does not have a numeric state"))
            end
        end
      else inr tt
  | None => inr tt
  end.

(** [_validate_input], lines 79-113. *)
Definition _validate_input (hass : HomeAssistant)
  (user_input : gmap string string) : Exception + unit :=
  match user_input !! ATTR_TEMPERATURE with
  | None => inl (KeyError ATTR_TEMPERATURE)
  | Some temp_entity =>
  match user_input !! ATTR_HUMIDITY with
  | None => inl (KeyError ATTR_HUMIDITY)
  | Some humidity_entity =>
  let pressure_entity := user_input !! ATTR_PRESSURE in
  match states hass !! temp_entity with
  | None =>
      inl (Invalid ("Temperature entity " +:+ temp_entity +:+ " not found"))
  | Some temp_state =>
  match states hass !! humidity_entity with
  | None =>
      inl (Invalid ("Humidity entity " +:+ humidity_entity +:+ " not found"))
  | Some humidity_state =>
  match check_pressure hass pressure_entity with
  | inl e => inl e
  | inr _ =>
  match py_float (state temp_state) with
  | None =>
      inl (Invalid ("Temperature entity " +:+ temp_entity
                    +:+ " does not have a numeric state"))
  | Some _ =>
  match py_float (state humidity_state) with
  | None =>
      inl (Invalid ("Humidity entity " +:+ humidity_entity
                    +:+ " does not have a numeric state"))
  | Some _ => inr tt
  end end end end end end end.

(** The form schema of lines 51-71. *)
Definition data_schema : list SchemaField :=
  [mkField false CONF_NAME (Some DEFAULT_NAME) TStr;
   mkField true ATTR_TEMPERATURE None (TEntitySelector "sensor" "temperature");
   mkField true ATTR_HUMIDITY None (TEntitySelector "sensor" "humidity");
   mkField false ATTR_PRESSURE None
     (TEntitySelector "sensor" "atmospheric_pressure")].

(** [async_step_user], lines 25-77. *)
Definition async_step_user (hass : HomeAssistant)
  (user_input : option (gmap string string))
  : ConfigFlowResult * list FlowLog :=
  match user_input with
  | Some user_input =>
      match _validate_input hass user_input with
      | inr _ =>
          let title := default DEFAULT_NAME (user_input !! CONF_NAME) in
          (async_create_entry title user_input, [])
      | inl (Invalid msg) =>
          (async_show_form "user" data_schema
             (<["base" := "invalid_entity"]> ∅), [])
      | inl exc =>
          (async_show_form "user" data_schema (<["base" := "unknown"]> ∅),
           [LogException "Unexpected exception: %s" exc])
      end
  | None => (async_show_form "user" data_schema ∅, [])
  end.

End Flow.

End HumidexConfigFlow.

Module OptionsFlowHandler.

(** The form schema of lines 156-180, with the current values as
    defaults. *)
Definition data_schema (config_entry : ConfigEntry) : list SchemaField :=
  let current_temp :=
    default EmptyString (data config_entry !! ATTR_TEMPERATURE) in
  let current_humidity :=
    default EmptyString (data config_entry !! ATTR_HUMIDITY) in
  let current_pressure :=
    default EmptyString (data config_entry !! ATTR_PRESSURE) in
  [mkField true ATTR_TEMPERATURE (Some current_temp)
     (TEntitySelector "sensor" "temperature");
   mkField true ATTR_HUMIDITY (Some current_humidity)
     (TEntitySelector "sensor" "humidity");
   mkField false ATTR_PRESSURE (Some current_pressure)
     (TEntitySelector "sensor" "atmospheric_pressure")].

(** Lines 138-150 of [async_step_init]: the entry, the [base] error, or the
    exception of a missing key. *)
Definition check_entities (hass : HomeAssistant)
  (user_input : gmap string string)
  : Exception + (ConfigFlowResult + string) :=
  match user_input !! ATTR_TEMPERATURE with
  | None => inl (KeyError ATTR_TEMPERATURE)
  | Some temp_entity =>
  match user_input !! ATTR_HUMIDITY with
  | None => inl (KeyError ATTR_HUMIDITY)
  | Some humidity_entity =>
  let pressure_entity := user_input !! ATTR_PRESSURE in
  let temp_state := states hass !! temp_entity in
  let humidity_state := states hass !! humidity_entity in
  if bool_decide (temp_state = None) || bool_decide (humidity_state = None)
  then inr (inr "invalid_entity")
  else if Py.truthy pressure_entity
          && bool_decide
               (states hass !! default EmptyString pressure_entity = None)
  then inr (inr "invalid_entity")
  else inr (inl (async_create_entry EmptyString user_input))
  end end.

(** [async_step_init], lines 129-186. *)
Definition async_step_init (config_entry : ConfigEntry) (hass : HomeAssistant)
  (user_input : option (gmap string string))
  : ConfigFlowResult * list FlowLog :=
  match user_input with
  | Some user_input =>
      match check_entities hass user_input with
      | inr (inl entry) => (entry, [])
      | inr (inr error) =>
          (async_show_form "init" (data_schema config_entry)
             (<["base" := error]> ∅), [])
      | inl exc =>
          (async_show_form "init" (data_schema config_entry)
             (<["base" := "unknown"]> ∅),
           [LogException "Unexpected exception in options: %s" exc])
      end
  | None => (async_show_form "init" (data_schema config_entry) ∅, [])
  end.

End OptionsFlowHandler.

(** * Properties *)

(** ** Python primitives *)

Lemma between_true (lo x hi : R) :
  Py.between lo x hi = true <-> lo <= x <= hi.
Proof.
  unfold Py.between.
  destruct (Rle_dec lo x), (Rle_dec x hi); split; intros H;
    try discriminate; try reflexivity; lra.
Qed.


Lemma div_defined (a b : R) : b <> 0 -> Py.div a b = Some (a / b).
Proof.
  intros Hb. unfold Py.div. destruct (Req_dec_T b 0); [contradiction | reflexivity].
Qed.

Lemma round_half_even_floor_or_next (y : R) :
  Py.round_half_even y = Zfloor y \/ Py.round_half_even y = (Zfloor y + 1)%Z.
Proof.
  unfold Py.round_half_even.
  destruct (Rlt_dec _ _); [now left |].
  destruct (Rlt_dec _ _); [now right |].
  destruct (Z.even _); [now left | now right].
Qed.

(** Within half a unit of an integer the rounding is that integer. *)
Lemma round_half_even_near (y : R) (z : Z) :
  IZR z - 1 / 2 < y < IZR z + 1 / 2 -> Py.round_half_even y = z.
Proof.
  intros [Hlo Hhi]. unfold Py.round_half_even.
  pose proof (Zfloor_bound y) as [Hf1 Hf2].
  destruct (Rle_dec (IZR z) y) as [Hzy | Hzy].
  - assert (Zfloor y = z) as -> by (apply Zfloor_eq; lra).
    destruct (Rlt_dec _ _); [reflexivity | lra].
  - assert (Zfloor y = (z - 1)%Z) as ->.
    { apply Zfloor_eq. rewrite minus_IZR. lra. }
    rewrite minus_IZR.
    destruct (Rlt_dec _ _); [lra |].
    destruct (Rlt_dec _ _); [lia | lra].
Qed.

Lemma round_half_even_mono (x y : R) :
  x <= y -> (Py.round_half_even x <= Py.round_half_even y)%Z.
Proof.
  intros Hxy.
  pose proof (Zfloor_le x y Hxy) as Hfl.
  destruct (Z.eq_dec (Zfloor x) (Zfloor y)) as [Heq | Hne].
  - unfold Py.round_half_even. rewrite Heq.
    set (f := Zfloor y).
    destruct (Rlt_dec (x - IZR f) (1 / 2)), (Rlt_dec (y - IZR f) (1 / 2));
      try lia; try lra;
      destruct (Rlt_dec (1 / 2) (x - IZR f)), (Rlt_dec (1 / 2) (y - IZR f));
      try lia; try lra;
      destruct (Z.even f); lia.
  - destruct (round_half_even_floor_or_next x) as [-> | ->],
      (round_half_even_floor_or_next y) as [-> | ->]; lia.
Qed.

Lemma round_mono (x y : R) (n : nat) : x <= y -> Py.round x n <= Py.round y n.
Proof.
  intros Hxy. unfold Py.round.
  assert (0 < 10 ^ n) as Hp by (apply pow_lt; lra).
  apply Rmult_le_compat_r; [left; now apply Rinv_0_lt_compat |].
  apply IZR_le, round_half_even_mono. nra.
Qed.

(** A value within a twentieth of [z / 10] rounds to [z / 10]. *)
Lemma round_1_near (x : R) (z : Z) :
  IZR z / 10 - 0.05 < x < IZR z / 10 + 0.05 -> Py.round x 1 = IZR z / 10.
Proof.
  intros H. unfold Py.round. simpl pow.
  rewrite (round_half_even_near (x * (10 * 1)) z) by lra.
  f_equal. lra.
Qed.

Lemma round_half_even_error (y : R) :
  IZR (Py.round_half_even y) - 1 / 2 <= y <= IZR (Py.round_half_even y) + 1 / 2.
Proof.
  unfold Py.round_half_even.
  pose proof (Zfloor_bound y) as [Hf1 Hf2].
  destruct (Rlt_dec (y - IZR (Zfloor y)) (1 / 2)); [lra |].
  destruct (Rlt_dec (1 / 2) (y - IZR (Zfloor y)));
    [rewrite plus_IZR; lra |].
  destruct (Z.even (Zfloor y)); [| rewrite plus_IZR]; lra.
Qed.

Lemma round_1_error (x : R) :
  exists z, Py.round x 1 = IZR z / 10 /\ x - 0.05 <= IZR z / 10 <= x + 0.05.
Proof.
  exists (Py.round_half_even (x * 10 ^ 1)). unfold Py.round.
  pose proof (round_half_even_error (x * 10 ^ 1)) as H.
  simpl pow in *. replace (10 * 1) with 10 in * by lra.
  split; [reflexivity | lra].
Qed.

(** ** The comfort classifier *)

Lemma comfort_level_cold (h : R) : h < 20 -> _get_comfort_level h = "cold".
Proof.
  intros H. unfold _get_comfort_level.
  destruct (Rlt_dec h 20); [reflexivity | lra].
Qed.

Lemma comfort_level_comfortable (h : R) :
  20 <= h <= 29 -> _get_comfort_level h = "comfortable".
Proof.
  intros H. unfold _get_comfort_level.
  destruct (Rlt_dec h 20); [lra |].
  destruct (Rle_dec h 29); [reflexivity | lra].
Qed.

Lemma comfort_level_slightly (h : R) :
  29 < h <= 39 -> _get_comfort_level h = "slightly_uncomfortable".
Proof.
  intros H. unfold _get_comfort_level.
  destruct (Rlt_dec h 20); [lra |].
  destruct (Rle_dec h 29); [lra |].
  destruct (Rle_dec h 39); [reflexivity | lra].
Qed.

Lemma comfort_level_very (h : R) :
  39 < h <= 45 -> _get_comfort_level h = "very_uncomfortable".
Proof.
  intros H. unfold _get_comfort_level.
  destruct (Rlt_dec h 20); [lra |].
  destruct (Rle_dec h 29); [lra |].
  destruct (Rle_dec h 39); [lra |].
  destruct (Rle_dec h 45); [reflexivity | lra].
Qed.

Lemma comfort_level_dangerous (h : R) :
  45 < h -> _get_comfort_level h = "dangerous".
Proof.
  intros H. unfold _get_comfort_level.
  destruct (Rlt_dec h 20); [lra |].
  destruct (Rle_dec h 29); [lra |].
  destruct (Rle_dec h 39); [lra |].
  destruct (Rle_dec h 45); [lra | reflexivity].
Qed.

Lemma comfort_level_cases (h : R) :
  (h < 20 /\ _get_comfort_level h = "cold") \/
  (20 <= h <= 29 /\ _get_comfort_level h = "comfortable") \/
  (29 < h <= 39 /\ _get_comfort_level h = "slightly_uncomfortable") \/
  (39 < h <= 45 /\ _get_comfort_level h = "very_uncomfortable") \/
  (45 < h /\ _get_comfort_level h = "dangerous").
Proof.
  assert (h < 20 \/ 20 <= h <= 29 \/ 29 < h <= 39 \/ 39 < h <= 45 \/ 45 < h)
    as [Hc | [Hc | [Hc | [Hc | Hc]]]] by lra.
  - left. split; [exact Hc | now apply comfort_level_cold].
  - right; left. split; [exact Hc | now apply comfort_level_comfortable].
  - do 2 right; left. split; [exact Hc | now apply comfort_level_slightly].
  - do 3 right; left. split; [exact Hc | now apply comfort_level_very].
  - do 4 right. split; [exact Hc | now apply comfort_level_dangerous].
Qed.

(** C6, against the boundary rule: 20 separates the cold band (below 20) from
    the comfortable band, and the classifier puts 20 in the comfortable band,
    the upper of the two, not in the cold band. *)
Lemma boundary_20_counterexample :
  _get_comfort_level 19.9 = "cold" /\
  _get_comfort_level 20 = "comfortable" /\
  _get_comfort_level 20 <> "cold".
Proof.
  rewrite (comfort_level_cold 19.9) by lra.
  rewrite (comfort_level_comfortable 20) by lra.
  repeat split. discriminate.
Qed.

(** C6, as the code has it: for every real humidex the classifier returns
    one of the five levels, the level of the band the value lies in: cold
    below 20, comfortable on [20, 29], slightly uncomfortable on (29, 39],
    very uncomfortable on (39, 45], dangerous above 45; the boundary values
    29, 39 and 45 fall in the lower of the two adjacent bands and 20 falls in
    the upper one, comfortable; the function has no failure path. *)
Theorem comfort_level_bands (h : R) :
  In (_get_comfort_level h) comfort_levels /\
  (_get_comfort_level h = "cold" <-> h < 20) /\
  (_get_comfort_level h = "comfortable" <-> 20 <= h <= 29) /\
  (_get_comfort_level h = "slightly_uncomfortable" <-> 29 < h <= 39) /\
  (_get_comfort_level h = "very_uncomfortable" <-> 39 < h <= 45) /\
  (_get_comfort_level h = "dangerous" <-> 45 < h) /\
  _get_comfort_level 20 = "comfortable" /\
  _get_comfort_level 29 = "comfortable" /\
  _get_comfort_level 39 = "slightly_uncomfortable" /\
  _get_comfort_level 45 = "very_uncomfortable".
Proof.
  repeat match goal with |- _ /\ _ => split end.
  - destruct (comfort_level_cases h) as [[_ ->] | [[_ ->] | [[_ ->] | [[_ ->] | [_ ->]]]]];
      unfold comfort_levels; simpl; tauto.
  - destruct (comfort_level_cases h) as [[Hc ->] | [[Hc ->] | [[Hc ->] | [[Hc ->] | [Hc ->]]]]];
      split; intros H; first [ reflexivity | discriminate H | lra ].
  - destruct (comfort_level_cases h) as [[Hc ->] | [[Hc ->] | [[Hc ->] | [[Hc ->] | [Hc ->]]]]];
      split; intros H; first [ reflexivity | discriminate H | lra ].
  - destruct (comfort_level_cases h) as [[Hc ->] | [[Hc ->] | [[Hc ->] | [[Hc ->] | [Hc ->]]]]];
      split; intros H; first [ reflexivity | discriminate H | lra ].
  - destruct (comfort_level_cases h) as [[Hc ->] | [[Hc ->] | [[Hc ->] | [[Hc ->] | [Hc ->]]]]];
      split; intros H; first [ reflexivity | discriminate H | lra ].
  - destruct (comfort_level_cases h) as [[Hc ->] | [[Hc ->] | [[Hc ->] | [[Hc ->] | [Hc ->]]]]];
      split; intros H; first [ reflexivity | discriminate H | lra ].
  - apply comfort_level_comfortable; lra.
  - apply comfort_level_comfortable; lra.
  - apply comfort_level_slightly; lra.
  - apply comfort_level_very; lra.
Qed.

(** ** The unit converter *)

(** C10: 32 and 212 degrees Fahrenheit convert to 0 and 100 degrees Celsius
    through [C = (F - 32) * 5/9], and a value whose unit is not Fahrenheit
    (Celsius or any other string) is returned unchanged. *)
Theorem convert_temperature_to_celsius_spec :
  _convert_temperature_to_celsius 32 UnitOfTemperature.FAHRENHEIT = 0 /\
  _convert_temperature_to_celsius 212 UnitOfTemperature.FAHRENHEIT = 100 /\
  (forall f,
     _convert_temperature_to_celsius f UnitOfTemperature.FAHRENHEIT
     = (f - 32) * 5 / 9) /\
  (forall x, _convert_temperature_to_celsius x UnitOfTemperature.CELSIUS = x) /\
  (forall x unit,
     unit <> UnitOfTemperature.FAHRENHEIT ->
     _convert_temperature_to_celsius x unit = x).
Proof.
  unfold _convert_temperature_to_celsius, TemperatureConverter_convert_F_to_C.
  repeat match goal with |- _ /\ _ => split end.
  - rewrite String.eqb_refl. lra.
  - rewrite String.eqb_refl. lra.
  - intros f. now rewrite String.eqb_refl.
  - intros x. reflexivity.
  - intros x unit Hne.
    destruct (String.eqb_spec unit UnitOfTemperature.FAHRENHEIT);
      [contradiction | reflexivity].
Qed.

(** The conversion at a Kelvin-labelled and a Celsius-labelled value. *)
Lemma convert_temperature_to_celsius_witness :
  _convert_temperature_to_celsius 300 "K" = 300 /\
  _convert_temperature_to_celsius 25 UnitOfTemperature.CELSIUS = 25.
Proof.
  split.
  - apply (proj2 (proj2 (proj2 (proj2 convert_temperature_to_celsius_spec)))).
    discriminate.
  - apply (proj1 (proj2 (proj2 (proj2 convert_temperature_to_celsius_spec)))).
Defined.

(** ** The calculator *)

Lemma dew_point_kelvin_pos (T RH : R) :
  -50 <= T -> 0 <= RH -> 0 < _calculate_dew_point T RH + 273.15.
Proof. unfold _calculate_dew_point. lra. Qed.

Lemma vapor_pressure_standard_defined (T RH : R) :
  -50 <= T -> 0 <= RH ->
  _calculate_vapor_pressure_standard T RH = Some (standard_vapor_pressure T RH).
Proof.
  intros HT HRH. unfold _calculate_vapor_pressure_standard.
  pose proof (dew_point_kelvin_pos T RH HT HRH) as Hpos.
  rewrite div_defined by lra. reflexivity.
Qed.

Lemma vapor_pressure_enhanced_defined (T RH P : R) :
  -50 <= T ->
  _calculate_vapor_pressure_enhanced T RH P
  = Some (enhanced_vapor_pressure T RH P).
Proof.
  intros HT. unfold _calculate_vapor_pressure_enhanced.
  rewrite div_defined by lra. simpl.
  unfold enhanced_vapor_pressure. replace 100.0 with 100 by lra. reflexivity.
Qed.

Lemma humidex_of_values_standard (T RH : R) :
  -50 <= T -> 0 <= RH ->
  humidex_of_values T RH None
  = Some (humidex_formula T (standard_vapor_pressure T RH), "standard").
Proof.
  intros HT HRH. unfold humidex_of_values.
  rewrite vapor_pressure_standard_defined by assumption. reflexivity.
Qed.

Lemma humidex_of_values_enhanced (T RH P : R) :
  -50 <= T ->
  humidex_of_values T RH (Some P)
  = Some (humidex_formula T (enhanced_vapor_pressure T RH P), "enhanced").
Proof.
  intros HT. unfold humidex_of_values.
  rewrite vapor_pressure_enhanced_defined by assumption. reflexivity.
Qed.

Lemma validate_true (T RH : R) (P : option R) :
  -50 <= T <= 70 -> 0 <= RH <= 100 ->
  (forall p, P = Some p -> 800 <= p <= 1200) ->
  _validate_sensor_values T RH P = (true, []).
Proof.
  intros HT HRH HP. unfold _validate_sensor_values.
  rewrite (proj2 (between_true _ _ _) HT), (proj2 (between_true _ _ _) HRH).
  simpl. destruct P as [p |]; [| reflexivity].
  rewrite (proj2 (between_true _ _ _) (HP p eq_refl)). reflexivity.
Qed.

Lemma validate_inv (T RH : R) (P : option R) (logs : list Effect) :
  _validate_sensor_values T RH P = (true, logs) ->
  -50 <= T <= 70 /\ 0 <= RH <= 100 /\
  (forall p, P = Some p -> 800 <= p <= 1200) /\ logs = [].
Proof.
  unfold _validate_sensor_values.
  destruct (Py.between (-50) T 70) eqn:HT; simpl; [| discriminate].
  destruct (Py.between 0 RH 100) eqn:HRH; simpl; [| discriminate].
  apply between_true in HT, HRH.
  destruct P as [p |].
  - destruct (Py.between 800 p 1200) eqn:HP; simpl; [| discriminate].
    apply between_true in HP. intros [= <-].
    split; [exact HT | split; [exact HRH | split; [| reflexivity]]].
    intros q [= <-]. exact HP.
  - intros [= <-].
    split; [exact HT | split; [exact HRH | split; [| reflexivity]]].
    discriminate.
Qed.

Lemma validate_false_warns (T RH : R) (P : option R) (logs : list Effect) :
  _validate_sensor_values T RH P = (false, logs) ->
  exists fmt args, logs = [Log WARNING fmt args].
Proof.
  unfold _validate_sensor_values.
  destruct (Py.between (-50) T 70); simpl; [| intros [= <-]; eauto].
  destruct (Py.between 0 RH 100); simpl; [| intros [= <-]; eauto].
  destruct P as [p |]; [| discriminate].
  destruct (Py.between 800 p 1200); simpl; [discriminate | intros [= <-]; eauto].
Qed.

(** ** The evaluation cycle *)

Lemma logged_method_warnings (logs rest : list Effect) :
  forallb is_warning logs = true ->
  logged_method (logs ++ rest) = logged_method rest.
Proof.
  induction logs as [| e logs IH]; simpl; [reflexivity |].
  intros H. apply andb_true_iff in H as [He Hl].
  destruct e as [[] fmt args |]; try discriminate. now apply IH.
Qed.

Lemma usable_state_inv (hass : HomeAssistant) (id : string) (s : State) :
  usable_state hass id = Some s <->
  states hass !! id = Some s /\ Py.in_unavailable_unknown (state s) = false.
Proof.
  unfold usable_state. destruct (states hass !! id) as [s' |]; simpl.
  - destruct (Py.in_unavailable_unknown (state s')) eqn:Hu; split.
    + discriminate.
    + intros [[= ->] H]. congruence.
    + intros [= ->]. now split.
    + intros [[= ->] _]. reflexivity.
  - split; [discriminate | intros [H _]; discriminate].
Qed.

Lemma usable_pressure_state_usable (self : HumidexSensor) (hass : HomeAssistant)
  (ps : State) :
  usable_pressure_state self hass = Some ps ->
  Py.in_unavailable_unknown (state ps) = false.
Proof.
  unfold usable_pressure_state.
  destruct (_pressure_entity_id self) as [id |]; [| discriminate].
  destruct (Py.truthy_str id); [| discriminate].
  intros H. now apply usable_state_inv in H.
Qed.

(** After lines 301-305 the pressure state is the usable pressure Reading,
    and at most a warning has been logged. *)
Lemma drop_unavailable_pressure_usable (self : HumidexSensor)
  (hass : HomeAssistant) :
  exists logs,
    drop_unavailable_pressure self (fetch_pressure_state self hass)
    = (usable_pressure_state self hass, logs) /\
    forallb is_warning logs = true.
Proof.
  unfold drop_unavailable_pressure, fetch_pressure_state,
    usable_pressure_state, usable_state.
  destruct (_pressure_entity_id self) as [id |]; simpl; [| eauto].
  destruct (Py.truthy_str id) eqn:Hid; simpl; [| eauto].
  destruct (states hass !! id) as [ps |]; simpl; [| eauto].
  destruct (Py.in_unavailable_unknown (state ps)); eauto.
Qed.

Lemma evaluate_values_published (self : HumidexSensor) (ts : State)
  (log : list Effect) (raw RH : R) (P : option R) :
  let T := _convert_temperature_to_celsius raw
             (default UnitOfTemperature.CELSIUS
                (attributes ts !! "unit_of_measurement")) in
  -50 <= T <= 70 -> 0 <= RH <= 100 ->
  (forall p, P = Some p -> 800 <= p <= 1200) ->
  exists v m debug,
    humidex_of_values T RH P = Some (v, m) /\
    evaluate_values self ts log raw RH P
    = (set_value self v, log ++ [debug; async_write_ha_state]) /\
    logged_method [debug; async_write_ha_state] = Some m.
Proof.
  intros T HT HRH HP. unfold evaluate_values. fold T.
  rewrite (validate_true T RH P HT HRH HP). simpl.
  destruct P as [p |].
  - rewrite humidex_of_values_enhanced by lra. eauto 6.
  - rewrite humidex_of_values_standard by lra. eauto 6.
Qed.

Lemma evaluate_values_rejected (self : HumidexSensor) (ts : State)
  (log : list Effect) (raw RH : R) (P : option R) :
  let T := _convert_temperature_to_celsius raw
             (default UnitOfTemperature.CELSIUS
                (attributes ts !! "unit_of_measurement")) in
  ~ (-50 <= T <= 70 /\ 0 <= RH <= 100 /\
     (forall p, P = Some p -> 800 <= p <= 1200)) ->
  exists fmt args,
    evaluate_values self ts log raw RH P
    = (set_unavailable self,
       log ++ [Log WARNING fmt args; async_write_ha_state]).
Proof.
  intros T Hbad. unfold evaluate_values. fold T.
  destruct (_validate_sensor_values T RH P) as [[] logs] eqn:Hv.
  - exfalso. apply Hbad. apply validate_inv in Hv. tauto.
  - apply validate_false_warns in Hv as (fmt & args & ->).
    exists fmt, args. simpl. unfold mark_unavailable.
    now rewrite <- app_assoc.
Qed.

Section EngineProperties.

Variable py_float : string -> option R.

(** The range conditions are decided by the verdict of the validator. *)
Lemma validate_verdict (T RH : R) (P : option R) :
  let ranges :=
    -50 <= T <= 70 /\ 0 <= RH <= 100 /\
    (forall p, P = Some p -> 800 <= p <= 1200) in
  ranges \/ ~ ranges.
Proof.
  intros ranges.
  destruct (_validate_sensor_values T RH P) as [[] logs] eqn:Hv.
  - left. apply validate_inv in Hv. unfold ranges. tauto.
  - right. intros (HT & HRH & HP).
    rewrite (validate_true T RH P HT HRH HP) in Hv. discriminate.
Qed.

(** Every cycle either publishes the rounded humidex of its readings or
    marks the sensor unavailable, the former exactly when the readings pass
    the availability condition of the code. *)
Lemma update_cases (self : HumidexSensor) (hass : HomeAssistant) :
  (exists T RH v m,
     temperature_reading py_float self hass = Some T /\
     humidity_reading py_float self hass = Some RH /\
     readings_ok py_float self hass /\
     humidex_of_values T RH (pressure_reading py_float self hass)
     = Some (v, m) /\
     fst (_async_update_humidex py_float self hass) = set_value self v /\
     logged_method (snd (_async_update_humidex py_float self hass)) = Some m)
  \/
  (~ readings_ok py_float self hass /\
   fst (_async_update_humidex py_float self hass) = set_unavailable self /\
   logged_method (snd (_async_update_humidex py_float self hass)) = None).
Proof.
  unfold readings_ok, required_in_range, temperature_reading,
    humidity_reading, pressure_reading, _async_update_humidex.
  destruct (drop_unavailable_pressure_usable self hass) as (plog & -> & Hplog).
  pose proof (usable_pressure_state_usable self hass) as Hps.
  unfold usable_state, mark_unavailable.
  (* the early returns of lines 272-299 *)
  destruct (states hass !! _temp_entity_id self) as [ts |]; simpl;
    [| right; split; [| split; reflexivity];
       intros [[[t [Ht _]] _] _]; discriminate ].
  destruct (states hass !! _humidity_entity_id self) as [hs |]; simpl;
    [| right; split; [| split; reflexivity];
       intros [[_ [h [Hh _]]] _]; discriminate ].
  destruct (Py.in_unavailable_unknown (state ts)); simpl;
    [ right; split; [| split; reflexivity];
      intros [[[t [Ht _]] _] _]; discriminate |].
  destruct (Py.in_unavailable_unknown (state hs)); simpl;
    [ right; split; [| split; reflexivity];
      intros [[_ [h [Hh _]]] _]; discriminate |].
  (* the conversions of lines 308-321 *)
  unfold parse_values.
  destruct (py_float (state ts)) as [raw |]; simpl;
    [| right; split;
       [ intros [[[t [Ht _]] _] _]; discriminate
       | split; [reflexivity
                | now rewrite <- app_assoc, logged_method_warnings] ]].
  destruct (py_float (state hs)) as [RH |]; simpl;
    [| right; split;
       [ intros [[_ [h [Hh _]]] _]; discriminate
       | split; [reflexivity
                | now rewrite <- app_assoc, logged_method_warnings] ]].
  set (T := _convert_temperature_to_celsius raw _).
  assert ((exists P,
            (usable_pressure_state self hass
             ≫= λ s : State, py_float (state s)) = P /\
            (forall ps, usable_pressure_state self hass = Some ps ->
               exists p, py_float (state ps) = Some p /\ P = Some p) /\
            match usable_pressure_state self hass with
            | Some ps0 =>
                (if negb (Py.in_unavailable_unknown (state ps0))
                 then py_float (state ps0) ≫= λ p : R, Some (Some p)
                 else Some None)
            | None => Some None
            end = Some P)
          \/
          (exists ps,
             usable_pressure_state self hass = Some ps /\
             py_float (state ps) = None)) as [(P & HP & Hnum & Hparse) | Hbad].
  { destruct (usable_pressure_state self hass) as [ps |] eqn:Hups.
    - rewrite (Hps ps eq_refl). simpl.
      destruct (py_float (state ps)) as [p |] eqn:Hp; [| right; eauto].
      left. exists (Some p). split; [reflexivity |]. split; [| reflexivity].
      intros ps' [= <-]. eauto.
    - left. exists None. split; [reflexivity |]. split; [| reflexivity].
      discriminate. }
  - (* the three values are parsed: lines 323-355 *)
    rewrite Hparse, HP. simpl.
    destruct (validate_verdict T RH P) as [(HT & HRH & HPr) | Hout].
    + destruct (evaluate_values_published self ts plog raw RH P)
        as (v & m & dbg & Hv & -> & Hm); fold T; try assumption.
      left. exists T, RH, v, m. simpl.
      rewrite logged_method_warnings by assumption.
      repeat split; eauto; try tauto.
      intros ps Hups. destruct (Hnum ps Hups) as (p & Hp & ->).
      exists p. split; [assumption | now apply HPr].
    + destruct (evaluate_values_rejected self ts plog raw RH P)
        as (fmt & args & ->); fold T; [assumption |].
      right. simpl. rewrite logged_method_warnings by assumption.
      split; [| split; reflexivity].
      intros [[(t & [= <-] & HT) (h & [= <-] & HRH)] Hpr].
      apply Hout. split; [assumption |]. split; [assumption |].
      intros p ->.
      destruct (usable_pressure_state self hass) as [ps |];
        [| discriminate].
      destruct (Hpr ps eq_refl) as (q & Hq & Hr).
      simpl in HP. rewrite Hq in HP. injection HP as <-. assumption.
  - (* the pressure state is not numeric *)
    destruct Hbad as (ps & Hups & Hp). rewrite Hups, (Hps ps Hups). simpl.
    rewrite Hp. simpl.
    right. split; [| split; [reflexivity |]].
    + intros [_ H]. destruct (H ps eq_refl) as (q & Hq & _). congruence.
    + now rewrite <- app_assoc, logged_method_warnings.
Qed.

End EngineProperties.

(** ** Enclosures of the exponential *)

Lemma scale_pos : 0 < IZR scale.
Proof. apply IZR_lt. reflexivity. Qed.

Lemma exp_double (y : R) : exp (2 * y) = exp y * exp y.
Proof. replace (2 * y) with (y + y) by lra. apply exp_plus. Qed.

Lemma exp_le_mono (x y : R) : x <= y -> exp x <= exp y.
Proof.
  intros [H | ->]; [left; now apply exp_increasing | right; reflexivity].
Qed.

Lemma sq_down_sound (n : nat) : forall (m : Z) (y : R),
  (0 <= m)%Z -> IZR m / IZR scale <= exp y ->
  IZR (sq_down n m) / IZR scale <= exp (2 ^ n * y).
Proof.
  pose proof scale_pos as Hs.
  induction n as [| n IH]; intros m y Hm Hle; simpl.
  - now rewrite Rmult_1_l.
  - replace (2 * 2 ^ n * y) with (2 ^ n * (2 * y)) by ring.
    apply IH.
    + apply Z.div_pos; [nia | reflexivity].
    + rewrite exp_double.
      assert (IZR (m * m / scale) * IZR scale <= IZR m * IZR m) as Hdiv.
      { rewrite <- !mult_IZR. apply IZR_le.
        rewrite Z.mul_comm. apply Z.mul_div_le. reflexivity. }
      assert (0 <= IZR m / IZR scale) as Hnn.
      { apply Rmult_le_pos; [now apply IZR_le | left; now apply Rinv_0_lt_compat]. }
      apply Rle_trans with (IZR m / IZR scale * (IZR m / IZR scale)).
      * apply Rmult_le_reg_r with (IZR scale); [assumption |].
        apply Rmult_le_reg_r with (IZR scale); [assumption |].
        replace (IZR m / IZR scale * (IZR m / IZR scale) * IZR scale * IZR scale)
          with (IZR m * IZR m) by (field; lra).
        replace (IZR (m * m / scale) / IZR scale * IZR scale * IZR scale)
          with (IZR (m * m / scale) * IZR scale) by (field; lra).
        exact Hdiv.
      * apply Rmult_le_compat; assumption.
Qed.

Lemma sq_up_sound (n : nat) : forall (m : Z) (y : R),
  (0 <= m)%Z -> exp y <= IZR m / IZR scale ->
  exp (2 ^ n * y) <= IZR (sq_up n m) / IZR scale.
Proof.
  pose proof scale_pos as Hs.
  induction n as [| n IH]; intros m y Hm Hle; simpl.
  - now rewrite Rmult_1_l.
  - replace (2 * 2 ^ n * y) with (2 ^ n * (2 * y)) by ring.
    apply IH.
    + assert (0 <= m * m / scale)%Z by (apply Z.div_pos; [nia | reflexivity]). lia.
    + rewrite exp_double.
      assert (IZR m * IZR m <= IZR (m * m / scale + 1) * IZR scale) as Hdiv.
      { rewrite <- !mult_IZR. apply IZR_le.
        pose proof (Z.mul_succ_div_gt (m * m) scale ltac:(reflexivity)). lia. }
      pose proof (exp_pos y) as Hpos.
      apply Rle_trans with (IZR m / IZR scale * (IZR m / IZR scale)).
      * apply Rmult_le_compat; lra.
      * apply Rmult_le_reg_r with (IZR scale); [assumption |].
        apply Rmult_le_reg_r with (IZR scale); [assumption |].
        replace (IZR m / IZR scale * (IZR m / IZR scale) * IZR scale * IZR scale)
          with (IZR m * IZR m) by (field; lra).
        replace (IZR (m * m / scale + 1) / IZR scale * IZR scale * IZR scale)
          with (IZR (m * m / scale + 1) * IZR scale) by (field; lra).
        exact Hdiv.
Qed.

Lemma pow2_IZR (n : nat) : IZR (2 ^ Z.of_nat n) = 2 ^ n.
Proof. rewrite <- pow_IZR. reflexivity. Qed.

Lemma exp_lower_sound (a b : Z) (n : nat) :
  (0 <= a)%Z -> (0 < b)%Z ->
  IZR (exp_lower a b n) / IZR scale <= exp (IZR a / IZR b).
Proof.
  intros Ha Hb. unfold exp_lower.
  pose proof scale_pos as Hs.
  set (d := (b * 2 ^ Z.of_nat n)%Z).
  assert (0 < d)%Z as Hd by (unfold d; apply Z.mul_pos_pos; [lia | apply Z.pow_pos_nonneg; lia]).
  assert (0 < IZR d) as HdR by (now apply IZR_lt).
  assert (0 < IZR b) as HbR by (now apply IZR_lt).
  assert (0 < 2 ^ n) as Hp by (apply pow_lt; lra).
  replace (IZR a / IZR b) with (2 ^ n * (IZR a / IZR d)).
  2:{ unfold d. rewrite mult_IZR, pow2_IZR. field. lra. }
  apply sq_down_sound.
  - assert (0 <= a * scale / d)%Z by (apply Z.div_pos; [| lia]; unfold scale; lia).
    unfold scale in *. lia.
  - apply Rle_trans with (1 + IZR a / IZR d); [| apply exp_ineq1_le].
    rewrite plus_IZR.
    assert (IZR (a * scale / d) * IZR d <= IZR a * IZR scale) as Hdiv.
    { rewrite <- !mult_IZR. apply IZR_le.
      rewrite Z.mul_comm. apply Z.mul_div_le. assumption. }
    apply Rmult_le_reg_r with (IZR scale); [assumption |].
    apply Rmult_le_reg_r with (IZR d); [assumption |].
    replace ((IZR scale + IZR (a * scale / d)) / IZR scale * IZR scale * IZR d)
      with (IZR scale * IZR d + IZR (a * scale / d) * IZR d) by (field; lra).
    replace ((1 + IZR a / IZR d) * IZR scale * IZR d)
      with (IZR scale * IZR d + IZR a * IZR scale) by (field; lra).
    lra.
Qed.

Lemma exp_upper_sound (a b : Z) (n : nat) :
  (0 <= a)%Z -> (0 < b)%Z -> (a < b * 2 ^ Z.of_nat n)%Z ->
  exp (IZR a / IZR b) <= IZR (exp_upper a b n) / IZR scale.
Proof.
  intros Ha Hb Hlt. unfold exp_upper.
  pose proof scale_pos as Hs.
  set (d := (b * 2 ^ Z.of_nat n)%Z) in *.
  assert (0 < d)%Z as Hd by lia.
  assert (0 < IZR d) as HdR by (now apply IZR_lt).
  assert (0 < IZR b) as HbR by (now apply IZR_lt).
  assert (0 < IZR (d - a)) as HdaR by (apply IZR_lt; lia).
  assert (0 <= IZR a) as HaR by (now apply IZR_le).
  assert (0 < 2 ^ n) as Hp by (apply pow_lt; lra).
  replace (IZR a / IZR b) with (2 ^ n * (IZR a / IZR d)).
  2:{ unfold d. rewrite mult_IZR, pow2_IZR. field. lra. }
  apply sq_up_sound.
  - assert (0 <= scale * d / (d - a))%Z by (apply Z.div_pos; [unfold scale; lia | lia]).
    lia.
  - set (y := IZR a / IZR d).
    assert (y < 1) as Hy1.
    { unfold y. apply Rmult_lt_reg_r with (IZR d); [assumption |].
      replace (IZR a / IZR d * IZR d) with (IZR a) by (field; lra).
      rewrite Rmult_1_l. apply IZR_lt. lia. }
    assert (exp y <= / (1 - y)) as Hexp.
    { pose proof (exp_ineq1_le (- y)) as Hn.
      rewrite exp_Ropp in Hn.
      pose proof (exp_pos y) as Hpos.
      apply Rmult_le_reg_r with (1 - y); [lra |].
      rewrite Rinv_l by lra.
      apply Rmult_le_reg_r with (/ exp y); [now apply Rinv_0_lt_compat |].
      replace (exp y * (1 - y) * / exp y) with (1 - y) by (field; lra).
      lra. }
    apply Rle_trans with (/ (1 - y)); [assumption |].
    assert (IZR scale * IZR d <= IZR (scale * d / (d - a) + 1) * IZR (d - a)) as Hdiv.
    { rewrite <- !mult_IZR. apply IZR_le.
      pose proof (Z.mul_succ_div_gt (scale * d) (d - a) ltac:(lia)). lia. }
    rewrite minus_IZR in *.
    apply Rmult_le_reg_r with (IZR scale); [assumption |].
    apply Rmult_le_reg_r with (1 - y); [lra |].
    apply Rmult_le_reg_r with (IZR d); [assumption |].
    replace (/ (1 - y) * IZR scale * (1 - y) * IZR d)
      with (IZR scale * IZR d) by (field; lra).
    replace (IZR (scale * d / (d - a) + 1) / IZR scale * IZR scale * (1 - y) * IZR d)
      with (IZR (scale * d / (d - a) + 1) * (IZR d - IZR a)).
    + exact Hdiv.
    + unfold y. field. lra.
Qed.

(** ** Monotonicity of the calculator in the humidity *)

Lemma standard_vapor_pressure_mono (T RH1 RH2 : R) :
  -50 <= T -> 0 <= RH1 -> RH1 <= RH2 ->
  standard_vapor_pressure T RH1 <= standard_vapor_pressure T RH2.
Proof.
  intros HT H1 H12. unfold standard_vapor_pressure.
  apply Rmult_le_compat_l; [lra |].
  apply exp_le_mono.
  apply Rmult_le_compat_l; [lra |].
  apply Rplus_le_compat_l, Ropp_le_contravar.
  unfold Rdiv. rewrite !Rmult_1_l.
  apply Rinv_le_contravar; lra.
Qed.

Lemma enhanced_vapor_pressure_mono (T RH1 RH2 P : R) :
  0 <= P -> RH1 <= RH2 ->
  enhanced_vapor_pressure T RH1 P <= enhanced_vapor_pressure T RH2 P.
Proof.
  intros HP H12. unfold enhanced_vapor_pressure.
  pose proof (exp_pos (17.27 * T / (T + 237.3))) as He.
  apply Rmult_le_compat_r; [lra |].
  apply Rmult_le_compat_r; lra.
Qed.

Lemma humidex_formula_mono (T e1 e2 : R) :
  e1 <= e2 -> humidex_formula T e1 <= humidex_formula T e2.
Proof. intros H. unfold humidex_formula. apply round_mono. lra. Qed.

(** C9: at a fixed temperature of the validated range, raising the humidity
    within [0, 100] never lowers the computed (rounded) humidex, under the
    Standard method and, for every fixed pressure of the validated range,
    under the Enhanced method. *)
Theorem humidex_monotone_in_humidity (T RH1 RH2 : R) :
  -50 <= T <= 70 -> 0 <= RH1 -> RH1 <= RH2 -> RH2 <= 100 ->
  (exists h1 h2,
     humidex_of_values T RH1 None = Some (h1, "standard") /\
     humidex_of_values T RH2 None = Some (h2, "standard") /\
     h1 <= h2) /\
  (forall P, 800 <= P <= 1200 ->
     exists h1 h2,
       humidex_of_values T RH1 (Some P) = Some (h1, "enhanced") /\
       humidex_of_values T RH2 (Some P) = Some (h2, "enhanced") /\
       h1 <= h2).
Proof.
  intros HT H1 H12 H2. split.
  - exists (humidex_formula T (standard_vapor_pressure T RH1)),
      (humidex_formula T (standard_vapor_pressure T RH2)).
    rewrite !humidex_of_values_standard by lra.
    repeat split.
    apply humidex_formula_mono, standard_vapor_pressure_mono; lra.
  - intros P HP.
    exists (humidex_formula T (enhanced_vapor_pressure T RH1 P)),
      (humidex_formula T (enhanced_vapor_pressure T RH2 P)).
    rewrite !humidex_of_values_enhanced by lra.
    repeat split.
    apply humidex_formula_mono, enhanced_vapor_pressure_mono; lra.
Qed.

(** The monotonicity at 30 degrees between 40 and 60 percent. *)
Lemma humidex_monotone_in_humidity_witness :
  (exists h1 h2,
     humidex_of_values 30 40 None = Some (h1, "standard") /\
     humidex_of_values 30 60 None = Some (h2, "standard") /\
     h1 <= h2) /\
  (forall P, 800 <= P <= 1200 ->
     exists h1 h2,
       humidex_of_values 30 40 (Some P) = Some (h1, "enhanced") /\
       humidex_of_values 30 60 (Some P) = Some (h2, "enhanced") /\
       h1 <= h2).
Proof.
  apply (humidex_monotone_in_humidity 30 40 60); lra.
Defined.

(** ** Scenario A: 30 degrees, 60 percent, no pressure *)

Lemma scenario_a_vapor_pressure :
  26.798 < standard_vapor_pressure 30 60 < 26.799.
Proof.
  unfold standard_vapor_pressure.
  set (x := 5417.7530 * (1 / 273.15 - 1 / (30 - (100 - 60) / 5 + 273.15))).
  assert (IZR 147842 / IZR 100000 <= x <= IZR 147843 / IZR 100000) as [Hlo Hhi]
    by (unfold x; lra).
  apply exp_le_mono in Hlo, Hhi.
  pose proof (exp_lower_sound 147842 100000 20 ltac:(lia) ltac:(lia)) as HL.
  pose proof (exp_upper_sound 147843 100000 20 ltac:(lia) ltac:(lia)
                ltac:(vm_compute; reflexivity)) as HU.
  replace (exp_lower 147842 100000 20) with 4386005735877649677%Z in HL
    by (vm_compute; reflexivity).
  replace (exp_upper 147843 100000 20) with 4386058738827833844%Z in HU
    by (vm_compute; reflexivity).
  change (IZR scale) with 1000000000000000000 in HL, HU.
  lra.
Qed.

Lemma scenario_a_humidex :
  humidex_formula 30 (standard_vapor_pressure 30 60) = 39.3.
Proof.
  pose proof scenario_a_vapor_pressure as H.
  unfold humidex_formula.
  rewrite (round_1_near _ 393) by lra. lra.
Qed.

(** ** Published attributes *)

(** The [calculation_method] attribute follows the pressure binding alone. *)
Lemma attr_calculation_method (self : HumidexSensor) :
  extra_state_attributes self !! "calculation_method"
  = Some (if Py.truthy (_pressure_entity_id self)
          then "enhanced" else "standard").
Proof.
  unfold extra_state_attributes, Py.truthy.
  destruct (_attr_native_value self) as [v |];
    destruct (_pressure_entity_id self) as [id |];
    try destruct (Py.truthy_str id);
    repeat (rewrite lookup_insert_ne by discriminate);
    now rewrite lookup_insert_eq.
Qed.

(** The [comfort_level] attribute is the level of the stored value. *)
Lemma attr_comfort_level (self : HumidexSensor) :
  extra_state_attributes self !! "comfort_level"
  = _get_comfort_level <$> _attr_native_value self.
Proof.
  unfold extra_state_attributes.
  destruct (_attr_native_value self) as [v |];
    destruct (_pressure_entity_id self) as [id |];
    try destruct (Py.truthy_str id); simpl;
    repeat (rewrite lookup_insert_ne by discriminate);
    first [ now rewrite lookup_insert_eq | now rewrite lookup_empty ].
Qed.

Section CycleProperties.

Variable py_float : string -> option R.

Lemma update_publishes (self : HumidexSensor) (hass : HomeAssistant) (T RH : R) :
  temperature_reading py_float self hass = Some T ->
  humidity_reading py_float self hass = Some RH ->
  readings_ok py_float self hass ->
  exists v m,
    humidex_of_values T RH (pressure_reading py_float self hass) = Some (v, m) /\
    fst (_async_update_humidex py_float self hass) = set_value self v /\
    logged_method (snd (_async_update_humidex py_float self hass)) = Some m.
Proof.
  intros HT HRH Hok.
  destruct (update_cases py_float self hass)
    as [(T' & RH' & v & m & HT' & HRH' & _ & Hv & Hfst & Hm) | (Hbad & _)];
    [| contradiction].
  rewrite HT in HT'. rewrite HRH in HRH'.
  injection HT' as <-. injection HRH' as <-. eauto.
Qed.

Lemma update_available_iff (self : HumidexSensor) (hass : HomeAssistant) :
  _attr_available (fst (_async_update_humidex py_float self hass)) = true
  <-> readings_ok py_float self hass.
Proof.
  destruct (update_cases py_float self hass)
    as [(T & RH & v & m & _ & _ & Hok & _ & -> & _) | (Hbad & -> & _)]; simpl.
  - tauto.
  - split; [discriminate | contradiction].
Qed.

Lemma update_value_iff_available (self : HumidexSensor) (hass : HomeAssistant) :
  is_Some (_attr_native_value (fst (_async_update_humidex py_float self hass)))
  <-> _attr_available (fst (_async_update_humidex py_float self hass)) = true.
Proof.
  destruct (update_cases py_float self hass)
    as [(T & RH & v & m & _ & _ & Hok & _ & -> & _) | (Hbad & -> & _)]; simpl.
  - split; eauto.
  - split; [intros [x Hx]; discriminate | discriminate].
Qed.

(** C2, as the code has it: after every cycle the sensor is available
    exactly when temperature and humidity were present, numeric and in range
    (temperature in Celsius within [-50, 70], humidity within [0, 100]) and
    the pressure Reading, when pressure is bound and its Reading is neither
    missing nor unavailable nor unknown, was numeric and within [800, 1200];
    the humidex value is stored exactly when the sensor is available, and
    the comfort_level attribute is present exactly when the value is, as the
    level of that value. *)
Theorem available_iff_readings_ok (self : HumidexSensor) (hass : HomeAssistant) :
  let self' := fst (_async_update_humidex py_float self hass) in
  (_attr_available self' = true <-> readings_ok py_float self hass) /\
  (is_Some (_attr_native_value self') <-> _attr_available self' = true) /\
  (is_Some (extra_state_attributes self' !! "comfort_level")
   <-> is_Some (_attr_native_value self')) /\
  (forall v, _attr_native_value self' = Some v ->
     extra_state_attributes self' !! "comfort_level"
     = Some (_get_comfort_level v)).
Proof.
  intros self'. split; [apply update_available_iff |].
  split; [apply update_value_iff_available |].
  rewrite attr_comfort_level. split.
  - apply fmap_is_Some.
  - intros v ->. reflexivity.
Qed.

(** C8, as the code has it: a cycle whose readings pass the availability
    condition uses exactly one of the two formulas: the Enhanced one when a
    numeric pressure contributes, that pressure lying in [800, 1200] and the
    vapor pressure being
    [(RH/100) * 6.1078 * exp (17.27 * T / (T + 237.3)) * (P / 1013.25)], and
    the Standard one when no pressure is usable; the stored value is within
    0.051 of the humidex formula on that vapor pressure. A cycle whose
    readings fail the condition, for instance on a pressure that is out of
    range or not numeric, uses neither formula and stores no value. *)
Theorem method_selected_by_pressure (self : HumidexSensor) (hass : HomeAssistant) :
  let cycle := _async_update_humidex py_float self hass in
  (readings_ok py_float self hass ->
   exists T RH e v,
     temperature_reading py_float self hass = Some T /\
     humidity_reading py_float self hass = Some RH /\
     _attr_available (fst cycle) = true /\
     _attr_native_value (fst cycle) = Some v /\
     T + 0.5555 * (e - 10) - 0.051 <= v <= T + 0.5555 * (e - 10) + 0.051 /\
     match pressure_reading py_float self hass with
     | Some P =>
         800 <= P <= 1200 /\
         logged_method (snd cycle) = Some "enhanced" /\
         _calculate_vapor_pressure_enhanced T RH P = Some e /\
         e = (RH / 100) * (6.1078 * exp (17.27 * T / (T + 237.3)))
             * (P / 1013.25)
     | None =>
         logged_method (snd cycle) = Some "standard" /\
         _calculate_vapor_pressure_standard T RH = Some e /\
         e = 6.11 * exp (5417.7530 *
                           (1 / 273.15 - 1 / (T - (100 - RH) / 5 + 273.15)))
     end) /\
  (~ readings_ok py_float self hass ->
   logged_method (snd cycle) = None /\
   _attr_available (fst cycle) = false /\
   _attr_native_value (fst cycle) = None) /\
  (logged_method (snd cycle) = Some "enhanced" <->
   readings_ok py_float self hass /\
   is_Some (pressure_reading py_float self hass)) /\
  (logged_method (snd cycle) = Some "standard" <->
   readings_ok py_float self hass /\
   pressure_reading py_float self hass = None).
Proof.
  intros cycle. subst cycle.
  destruct (update_cases py_float self hass)
    as [(T & RH & v & m & HT & HRH & Hok & Hv & Hfst & Hm) | (Hbad & Hfst & Hm)].
  2:{ rewrite Hfst, Hm. simpl.
      split; [contradiction |]. split; [auto |].
      split; (split; [discriminate | tauto]). }
  rewrite Hfst, Hm. simpl.
  pose proof Hok as [[(t & Ht & Htr) (h & Hh & Hhr)] Hps].
  rewrite HT in Ht. injection Ht as <-.
  rewrite HRH in Hh. injection Hh as <-.
  unfold pressure_reading in *.
  destruct (usable_pressure_state self hass) as [ps |]; simpl in *.
  - destruct (Hps ps eq_refl) as (P & HP & HPr). rewrite HP in *.
    rewrite humidex_of_values_enhanced in Hv by lra.
    injection Hv as <- <-.
    split; [intros _ | split; [contradiction |]].
    + exists T, RH, (enhanced_vapor_pressure T RH P),
        (humidex_formula T (enhanced_vapor_pressure T RH P)).
      split; [assumption |]. split; [assumption |].
      split; [reflexivity |]. split; [reflexivity |]. split.
      * unfold humidex_formula.
        destruct (round_1_error (T + 0.5555 * (enhanced_vapor_pressure T RH P - 10)))
          as (z & -> & Hz). lra.
      * split; [lra |]. split; [reflexivity |].
        split; [apply vapor_pressure_enhanced_defined; lra | reflexivity].
    + split; split; try discriminate; try tauto;
        first [ intros _; split; [assumption | first [reflexivity | eauto]]
              | intros [_ H]; first [discriminate H
                                    | destruct H as [x Hx]; discriminate Hx] ].
  - rewrite humidex_of_values_standard in Hv by lra.
    injection Hv as <- <-.
    split; [intros _ | split; [contradiction |]].
    + exists T, RH, (standard_vapor_pressure T RH),
        (humidex_formula T (standard_vapor_pressure T RH)).
      split; [assumption |]. split; [assumption |].
      split; [reflexivity |]. split; [reflexivity |]. split.
      * unfold humidex_formula.
        destruct (round_1_error (T + 0.5555 * (standard_vapor_pressure T RH - 10)))
          as (z & -> & Hz). lra.
      * split; [reflexivity |].
        split; [apply vapor_pressure_standard_defined; lra | reflexivity].
    + split; split; try discriminate; try tauto;
        first [ intros _; split; [assumption | first [reflexivity | eauto]]
              | intros [_ H]; first [discriminate H
                                    | destruct H as [x Hx]; discriminate Hx] ].
Qed.

End CycleProperties.

Section FailurePaths.

Variable py_float : string -> option R.

(** C4, as the code has it: when the pressure Reading is usable (bound,
    present, neither unavailable nor unknown) but not numeric, while
    temperature and humidity are usable and numeric, the cycle does not fall
    back to the Standard method: it logs one error naming the three states
    and marks the sensor unavailable. *)
Theorem non_numeric_pressure_is_fatal (self : HumidexSensor)
  (hass : HomeAssistant) (ts hs ps : State) (raw RH : R) :
  usable_state hass (_temp_entity_id self) = Some ts ->
  usable_state hass (_humidity_entity_id self) = Some hs ->
  usable_pressure_state self hass = Some ps ->
  py_float (state ts) = Some raw ->
  py_float (state hs) = Some RH ->
  py_float (state ps) = None ->
  _async_update_humidex py_float self hass
  = (set_unavailable self,
     [Log ERROR
        "Invalid numeric values: temp=%s, humidity=%s, pressure=%s (%s)"
        [AStr (state ts); AStr (state hs); AStr (state ps); AExc ValueError];
      async_write_ha_state]).
Proof.
  intros Hts Hhs Hps Hraw HRH Hp.
  apply usable_state_inv in Hts as [Hts Htu], Hhs as [Hhs Hhu].
  pose proof (usable_pressure_state_usable self hass ps Hps) as Hpu.
  unfold _async_update_humidex. rewrite Hts, Hhs, Htu, Hhu.
  assert (drop_unavailable_pressure self (fetch_pressure_state self hass)
          = (Some ps, [])) as ->.
  { unfold usable_pressure_state, fetch_pressure_state,
      drop_unavailable_pressure in *.
    destruct (_pressure_entity_id self) as [id |]; [| discriminate].
    destruct (Py.truthy_str id); [| discriminate].
    apply usable_state_inv in Hps as [-> ->].
    now rewrite andb_false_r. }
  unfold parse_values. rewrite Hraw, HRH, Hpu, Hp. reflexivity.
Qed.

(** Without a usable pressure state the cycle does not depend on the
    pressure binding. *)
Lemma update_without_pressure (self : HumidexSensor) (hass : HomeAssistant) :
  fetch_pressure_state self hass = None ->
  let cycle := _async_update_humidex py_float self hass in
  let cycle' := _async_update_humidex py_float (without_pressure self) hass in
  snd cycle = snd cycle' /\
  _attr_native_value (fst cycle) = _attr_native_value (fst cycle') /\
  _attr_available (fst cycle) = _attr_available (fst cycle').
Proof.
  intros Hp. unfold _async_update_humidex. rewrite Hp. simpl.
  destruct (states hass !! _temp_entity_id self) as [ts |];
    [| repeat split].
  destruct (states hass !! _humidity_entity_id self) as [hs |];
    [| repeat split].
  destruct (Py.in_unavailable_unknown (state ts)); [repeat split |].
  destruct (Py.in_unavailable_unknown (state hs)); [repeat split |].
  destruct (parse_values py_float ts hs None) as [[[raw RH] P] |];
    [| repeat split].
  unfold evaluate_values.
  destruct (_validate_sensor_values _ RH P) as [[] logs]; simpl;
    [| repeat split].
  destruct (humidex_of_values _ RH P) as [[v m] |]; repeat split.
Qed.

(** C5, as the code has it: when the temperature or the humidity entity has
    no state at all, the cycle logs a warning and marks the sensor
    unavailable; when only the bound pressure entity has no state, the cycle
    runs as that of a sensor with no pressure binding: same effects, same
    value, same availability. *)
Theorem missing_source (self : HumidexSensor) (hass : HomeAssistant) :
  let cycle := _async_update_humidex py_float self hass in
  (states hass !! _temp_entity_id self = None \/
   states hass !! _humidity_entity_id self = None ->
   fst cycle = set_unavailable self /\
   exists fmt id, snd cycle = [Log WARNING fmt [AStr id]; async_write_ha_state])
  /\
  (forall id,
     _pressure_entity_id self = Some id -> states hass !! id = None ->
     let cycle' :=
       _async_update_humidex py_float (without_pressure self) hass in
     snd cycle = snd cycle' /\
     _attr_native_value (fst cycle) = _attr_native_value (fst cycle') /\
     _attr_available (fst cycle) = _attr_available (fst cycle')).
Proof.
  intros cycle. split.
  - subst cycle. unfold _async_update_humidex, mark_unavailable.
    destruct (states hass !! _temp_entity_id self) as [ts |]; [| eauto].
    intros [Hmiss | ->]; [discriminate | eauto].
  - intros id Hid Hmiss. apply update_without_pressure.
    unfold fetch_pressure_state. rewrite Hid, Hmiss.
    now destruct (Py.truthy_str id).
Qed.

End FailurePaths.

(** ** Concrete cycles *)

Lemma scenario_a_readings_ok :
  readings_ok float_literal sensor_th (hass_th "30" "60").
Proof.
  split; [split |].
  - exists 30. split; [reflexivity | lra].
  - exists 60. split; [reflexivity | lra].
  - intros ps Hps. discriminate Hps.
Qed.

Lemma scenario_a_cycle :
  let cycle :=
    _async_update_humidex float_literal sensor_th (hass_th "30" "60") in
  fst cycle = set_value sensor_th 39.3 /\
  logged_method (snd cycle) = Some "standard".
Proof.
  destruct (update_publishes float_literal sensor_th (hass_th "30" "60") 30 60)
    as (v & m & Hv & Hfst & Hm);
    [reflexivity | reflexivity | exact scenario_a_readings_ok |].
  change (pressure_reading float_literal sensor_th (hass_th "30" "60"))
    with (@None R) in Hv.
  rewrite humidex_of_values_standard in Hv by lra.
  rewrite scenario_a_humidex in Hv. injection Hv as <- <-.
  simpl. now rewrite Hfst, Hm.
Qed.

(** C3, against the specification's arithmetic: at 30 degrees and 60 percent
    the vapor pressure exceeds 26.79, the published humidex is 39.3 and the
    comfort level is very_uncomfortable, not slightly_uncomfortable; the
    specification's own 39.1 lies in the very_uncomfortable band too. *)
Lemma scenario_a_counterexample :
  let cycle :=
    _async_update_humidex float_literal sensor_th (hass_th "30" "60") in
  26.79 < standard_vapor_pressure 30 60 /\
  _attr_native_value (fst cycle) = Some 39.3 /\
  extra_state_attributes (fst cycle) !! "comfort_level"
  = Some "very_uncomfortable" /\
  extra_state_attributes (fst cycle) !! "comfort_level"
  <> Some "slightly_uncomfortable" /\
  _get_comfort_level 39.1 = "very_uncomfortable".
Proof.
  destruct scenario_a_cycle as [Hfst _]. simpl. rewrite Hfst.
  pose proof scenario_a_vapor_pressure as He.
  rewrite attr_comfort_level. simpl.
  rewrite (comfort_level_very 39.3) by lra.
  repeat split; try lra; try discriminate.
  apply comfort_level_very. lra.
Qed.

(** C3, as the code has it: for 30 degrees, 60 percent and no pressure the
    cycle uses the Standard method, the dew point is 22, the vapor pressure
    lies between 26.798 and 26.799 (about 26.8), the published humidex is
    39.3 and the comfort level is very_uncomfortable. *)
Theorem scenario_a :
  let cycle :=
    _async_update_humidex float_literal sensor_th (hass_th "30" "60") in
  logged_method (snd cycle) = Some "standard" /\
  _calculate_dew_point 30 60 = 22 /\
  _calculate_vapor_pressure_standard 30 60
  = Some (standard_vapor_pressure 30 60) /\
  26.798 < standard_vapor_pressure 30 60 < 26.799 /\
  _attr_native_value (fst cycle) = Some 39.3 /\
  _attr_available (fst cycle) = true /\
  extra_state_attributes (fst cycle) !! "comfort_level"
  = Some "very_uncomfortable".
Proof.
  destruct scenario_a_cycle as [Hfst Hm]. simpl. rewrite Hfst, Hm.
  rewrite attr_comfort_level. simpl.
  rewrite (comfort_level_very 39.3) by lra.
  split; [reflexivity |].
  split; [unfold _calculate_dew_point; lra |].
  split; [apply vapor_pressure_standard_defined; lra |].
  split; [exact scenario_a_vapor_pressure |].
  repeat split.
Qed.

(** The readings with a pressure entity that reports a word. *)
Lemma non_numeric_pressure_cycle :
  let cycle :=
    _async_update_humidex float_literal sensor_thp (hass_thp "30" "60" "abc") in
  fst cycle = set_unavailable sensor_thp /\ logged_method (snd cycle) = None.
Proof.
  destruct (update_cases float_literal sensor_thp (hass_thp "30" "60" "abc"))
    as [(T & RH & v & m & _ & _ & [_ Hps] & _) | (_ & Hfst & Hm)].
  - destruct (Hps (reading_of "abc") eq_refl) as (p & Hp & _). discriminate Hp.
  - now split.
Qed.

(** C2, against the availability condition as worded: with temperature 30
    and humidity 60 present, numeric and in range, and a bound pressure
    entity reporting the word abc, no pressure contributes, so the worded
    condition holds, yet the sensor is unavailable. *)
Lemma available_counterexample :
  let hass := hass_thp "30" "60" "abc" in
  spec_available float_literal sensor_thp hass /\
  _attr_available (fst (_async_update_humidex float_literal sensor_thp hass))
  = false.
Proof.
  split.
  - split; [split |].
    + exists 30. split; [reflexivity | lra].
    + exists 60. split; [reflexivity | lra].
    + intros p Hp. discriminate Hp.
  - destruct non_numeric_pressure_cycle as [-> _]. reflexivity.
Qed.

(** C4, against the degradation: with a bound pressure entity reporting the
    word abc, and numeric temperature and humidity, the cycle computes with
    no method and leaves the sensor unavailable without a value. *)
Lemma non_numeric_pressure_counterexample :
  let hass := hass_thp "30" "60" "abc" in
  let cycle := _async_update_humidex float_literal sensor_thp hass in
  usable_pressure_state sensor_thp hass = Some (reading_of "abc") /\
  float_literal "abc" = None /\
  temperature_reading float_literal sensor_thp hass = Some 30 /\
  humidity_reading float_literal sensor_thp hass = Some 60 /\
  logged_method (snd cycle) = None /\
  _attr_available (fst cycle) = false /\
  _attr_native_value (fst cycle) = None.
Proof.
  destruct non_numeric_pressure_cycle as [Hfst Hm]. simpl.
  rewrite Hfst, Hm. repeat split.
Qed.

(** The error path at temperature 30, humidity 60 and pressure abc. *)
Lemma non_numeric_pressure_is_fatal_witness :
  _async_update_humidex float_literal sensor_thp (hass_thp "30" "60" "abc")
  = (set_unavailable sensor_thp,
     [Log ERROR
        "Invalid numeric values: temp=%s, humidity=%s, pressure=%s (%s)"
        [AStr "30"; AStr "60"; AStr "abc"; AExc ValueError];
      async_write_ha_state]).
Proof.
  apply (non_numeric_pressure_is_fatal float_literal sensor_thp
           (hass_thp "30" "60" "abc")
           (reading_of "30") (reading_of "60") (reading_of "abc") 30 60);
    reflexivity.
Defined.

(** The readings with a pressure entity that reports unknown. *)
Lemma unknown_pressure_readings_ok :
  readings_ok float_literal sensor_thp (hass_thp "30" "60" "unknown").
Proof.
  split; [split |].
  - exists 30. split; [reflexivity | lra].
  - exists 60. split; [reflexivity | lra].
  - intros ps Hps. discriminate Hps.
Qed.

(** C1, at a cycle that dropped the pressure: pressure is bound and reports
    unknown, temperature is 30 and humidity 60. The cycle computes with the
    Standard method and says so in its log, the sensor is available with the
    Standard value 39.3, and the published calculation_method attribute is
    enhanced. *)
Theorem calculation_method_attribute_after_dropped_pressure :
  let hass := hass_thp "30" "60" "unknown" in
  let cycle := _async_update_humidex float_literal sensor_thp hass in
  pressure_reading float_literal sensor_thp hass = None /\
  _attr_available (fst cycle) = true /\
  _attr_native_value (fst cycle) = Some 39.3 /\
  logged_method (snd cycle) = Some "standard" /\
  extra_state_attributes (fst cycle) !! "calculation_method" = Some "enhanced".
Proof.
  destruct (update_publishes float_literal sensor_thp
              (hass_thp "30" "60" "unknown") 30 60)
    as (v & m & Hv & Hfst & Hm);
    [reflexivity | reflexivity | exact unknown_pressure_readings_ok |].
  change (pressure_reading float_literal sensor_thp
            (hass_thp "30" "60" "unknown")) with (@None R) in Hv.
  rewrite humidex_of_values_standard in Hv by lra.
  rewrite scenario_a_humidex in Hv. injection Hv as <- <-.
  simpl. rewrite Hfst, Hm, attr_calculation_method. repeat split.
Qed.

(** The effects of a cycle of the sensor bound to temperature and humidity
    only, at 30 degrees and 60 percent: one debug record and the state
    write. *)
Lemma scenario_a_effects :
  snd (_async_update_humidex float_literal sensor_th (hass_th "30" "60"))
  = [Log DEBUG
       "Calculated humidex: %.1f°C using %s method (temp=%.1f°C, humidity=%.1f%%, pressure=%s)"
       [AFloat 39.3; AStr "standard"; AFloat 30; AFloat 60; AStr "N/A"];
     async_write_ha_state].
Proof.
  unfold _async_update_humidex.
  change (states (hass_th "30" "60") !! _temp_entity_id sensor_th)
    with (Some (reading_of "30")).
  change (states (hass_th "30" "60") !! _humidity_entity_id sensor_th)
    with (Some (reading_of "60")).
  change (fetch_pressure_state sensor_th (hass_th "30" "60"))
    with (@None State).
  cbn -[evaluate_values parse_values].
  change (parse_values float_literal (reading_of "30") (reading_of "60") None)
    with (Some (30, 60, @None R)).
  unfold evaluate_values.
  change (_convert_temperature_to_celsius 30 _) with 30.
  rewrite (validate_true 30 60 None) by (try lra; discriminate).
  simpl. rewrite humidex_of_values_standard by lra.
  now rewrite scenario_a_humidex.
Qed.

(** C5, against the pressure case: the bound pressure entity has no state
    at all, temperature is 30 and humidity 60; the sensor is available with
    a value and the cycle logs no warning. *)
Lemma missing_pressure_counterexample :
  let hass := hass_th "30" "60" in
  let cycle := _async_update_humidex float_literal sensor_thp hass in
  _pressure_entity_id sensor_thp = Some "sensor.p" /\
  states hass !! "sensor.p" = None /\
  _attr_available (fst cycle) = true /\
  _attr_native_value (fst cycle) = Some 39.3 /\
  existsb is_warning (snd cycle) = false.
Proof.
  destruct (update_without_pressure float_literal sensor_thp
              (hass_th "30" "60") eq_refl) as (Hsnd & Hval & Hav).
  change (without_pressure sensor_thp) with sensor_th in *.
  destruct scenario_a_cycle as [Hfst _]. simpl in *.
  rewrite Hfst in Hval, Hav. rewrite Hsnd, Hval, Hav, scenario_a_effects.
  repeat split.
Qed.

(** The missing-source paths at concrete snapshots: no entity at all, and a
    bound pressure entity without a state. *)
Lemma missing_source_witness :
  (fst (_async_update_humidex float_literal sensor_th (mkHass ∅))
   = set_unavailable sensor_th) /\
  (snd (_async_update_humidex float_literal sensor_thp (hass_th "30" "60"))
   = snd (_async_update_humidex float_literal (without_pressure sensor_thp)
            (hass_th "30" "60"))).
Proof.
  split.
  - apply (proj1 (missing_source float_literal sensor_th (mkHass ∅))).
    left. reflexivity.
  - apply (proj2 (missing_source float_literal sensor_thp (hass_th "30" "60"))
             "sensor.p"); reflexivity.
Defined.

Lemma scenario_b_readings_ok :
  readings_ok float_literal sensor_thp (hass_thp "25" "50" "1013").
Proof.
  split; [split |].
  - exists 25. split; [reflexivity | lra].
  - exists 50. split; [reflexivity | lra].
  - intros ps [= <-]. exists 1013. split; [reflexivity | lra].
Qed.

(** The Enhanced cycle at 25 degrees, 50 percent and 1013 hPa. *)
Lemma method_selected_by_pressure_witness :
  logged_method
    (snd (_async_update_humidex float_literal sensor_thp
            (hass_thp "25" "50" "1013")))
  = Some "enhanced".
Proof.
  destruct (proj1 (method_selected_by_pressure float_literal sensor_thp
                     (hass_thp "25" "50" "1013")) scenario_b_readings_ok)
    as (T & RH & e & v & _ & _ & _ & _ & _ & H).
  change (pressure_reading float_literal sensor_thp
            (hass_thp "25" "50" "1013")) with (Some 1013) in H.
  exact (proj1 (proj2 H)).
Defined.

(** C8, against the fallback: temperature 30 and humidity 60 are fine and
    the bound pressure entity reports 700, a number outside [800, 1200], so
    no valid pressure is present; the cycle uses neither the Standard nor
    the Enhanced formula and leaves the sensor unavailable. *)
Lemma out_of_range_pressure_counterexample :
  let hass := hass_thp "30" "60" "700" in
  let cycle := _async_update_humidex float_literal sensor_thp hass in
  temperature_reading float_literal sensor_thp hass = Some 30 /\
  humidity_reading float_literal sensor_thp hass = Some 60 /\
  pressure_reading float_literal sensor_thp hass = Some 700 /\
  ~ 800 <= 700 <= 1200 /\
  logged_method (snd cycle) = None /\
  _attr_available (fst cycle) = false.
Proof.
  simpl.
  split; [reflexivity |]. split; [reflexivity |]. split; [reflexivity |].
  split; [lra |].
  destruct (update_cases float_literal sensor_thp (hass_thp "30" "60" "700"))
    as [(T & RH & v & m & _ & _ & [_ Hps] & _) | (_ & Hfst & Hm)].
  - destruct (Hps (reading_of "700") eq_refl) as (p & Hp & Hr).
    change (float_literal (state (reading_of "700"))) with (Some 700) in Hp.
    injection Hp as <-. lra.
  - rewrite Hfst, Hm. now split.
Qed.

(** * Further properties of the sensor *)

(** ** The range validator *)


(** ** The vapor pressure formulas *)

Lemma magnus_exponent_mono (T1 T2 : R) :
  -50 <= T1 -> T1 <= T2 ->
  17.27 * T1 / (T1 + 237.3) <= 17.27 * T2 / (T2 + 237.3).
Proof.
  intros H1 H12.
  apply Rmult_le_reg_r with ((T1 + 237.3) * (T2 + 237.3)).
  { apply Rmult_lt_0_compat; lra. }
  replace (17.27 * T1 / (T1 + 237.3) * ((T1 + 237.3) * (T2 + 237.3)))
    with (17.27 * T1 * (T2 + 237.3)) by (field; lra).
  replace (17.27 * T2 / (T2 + 237.3) * ((T1 + 237.3) * (T2 + 237.3)))
    with (17.27 * T2 * (T1 + 237.3)) by (field; lra).
  nra.
Qed.

(** The vapor pressures over the validated ranges. *)
Lemma standard_vapor_pressure_range (T RH : R) :
  -50 <= T <= 70 -> 0 <= RH <= 100 ->
  0.0065 < standard_vapor_pressure T RH < 350.
Proof.
  intros HT HRH. unfold standard_vapor_pressure.
  set (d := T - (100 - RH) / 5 + 273.15).
  assert (203.15 <= d <= 343.15) as [Hd1 Hd2] by (unfold d; lra).
  assert (/ 343.15 <= / d <= / 203.15) as [Hi1 Hi2].
  { split; apply Rinv_le_contravar; lra. }
  set (x := 5417.7530 * (1 / 273.15 - 1 / d)).
  assert (- (IZR 68345 / IZR 10000) <= x <= IZR 40461 / IZR 10000)
    as [Hlo Hhi] by (unfold x, Rdiv; lra).
  apply exp_le_mono in Hlo, Hhi. rewrite exp_Ropp in Hlo.
  pose proof (exp_upper_sound 40461 10000 20 ltac:(lia) ltac:(lia)
                ltac:(vm_compute; reflexivity)) as HU1.
  pose proof (exp_upper_sound 68345 10000 20 ltac:(lia) ltac:(lia)
                ltac:(vm_compute; reflexivity)) as HU2.
  replace (exp_upper 40461 10000 20) with 57174489222425595184%Z in HU1
    by (vm_compute; reflexivity).
  replace (exp_upper 68345 10000 20) with 929384253027064301718%Z in HU2
    by (vm_compute; reflexivity).
  change (IZR scale) with 1000000000000000000 in HU1, HU2.
  pose proof (exp_pos (IZR 68345 / IZR 10000)) as Hpos.
  assert (/ (929384253027064301718 / 1000000000000000000)
          <= / exp (IZR 68345 / IZR 10000)) as Hinv
    by (apply Rinv_le_contravar; lra).
  lra.
Qed.

Lemma enhanced_vapor_pressure_range (T RH P : R) :
  -50 <= T <= 70 -> 0 <= RH <= 100 -> 800 <= P <= 1200 ->
  0 <= enhanced_vapor_pressure T RH P < 370.
Proof.
  intros HT HRH HP. unfold enhanced_vapor_pressure.
  set (q := 17.27 * T / (T + 237.3)).
  assert (q <= IZR 39340 / IZR 10000) as Hq.
  { apply Rle_trans with (17.27 * 70 / (70 + 237.3));
      [apply magnus_exponent_mono; lra | lra]. }
  apply exp_le_mono in Hq.
  pose proof (exp_upper_sound 39340 10000 20 ltac:(lia) ltac:(lia)
                ltac:(vm_compute; reflexivity)) as HU.
  replace (exp_upper 39340 10000 20) with 51111390565652515967%Z in HU
    by (vm_compute; reflexivity).
  change (IZR scale) with 1000000000000000000 in HU.
  pose proof (exp_pos q) as Hpos.
  set (es := 6.1078 * exp q) in *.
  assert (0 < es <= 312.2) as [Hes1 Hes2] by (unfold es; lra).
  assert (0 <= RH / 100 * es <= 312.2) as [Ha1 Ha2].
  { split; [apply Rmult_le_pos; lra |].
    apply Rle_trans with (1 * es); [| lra].
    apply Rmult_le_compat_r; lra. }
  assert (0 <= P / 1013.25 <= 1.185) as [Hc1 Hc2] by lra.
  split; [apply Rmult_le_pos; lra |].
  apply Rle_lt_trans with (312.2 * 1.185); [| lra].
  apply Rmult_le_compat; lra.
Qed.

(** X2: on validated values (temperature in [-50, 70], humidity in
    [0, 100], pressure in [800, 1200]) neither vapor pressure formula
    raises; the Standard vapor pressure lies between 0.0065 and 350, the
    Enhanced one between 0 and 370, and the Enhanced one is 0 at zero
    humidity whatever the pressure. *)
Theorem vapor_pressure_on_validated_values (T RH P : R) :
  -50 <= T <= 70 -> 0 <= RH <= 100 -> 800 <= P <= 1200 ->
  exists es ee,
    _calculate_vapor_pressure_standard T RH = Some es /\
    0.0065 < es < 350 /\
    _calculate_vapor_pressure_enhanced T RH P = Some ee /\
    0 <= ee < 370 /\
    (RH = 0 -> ee = 0).
Proof.
  intros HT HRH HP.
  exists (standard_vapor_pressure T RH), (enhanced_vapor_pressure T RH P).
  split; [apply vapor_pressure_standard_defined; lra |].
  split; [now apply standard_vapor_pressure_range |].
  split; [apply vapor_pressure_enhanced_defined; lra |].
  split; [now apply enhanced_vapor_pressure_range |].
  intros ->. unfold enhanced_vapor_pressure, Rdiv. now rewrite !Rmult_0_l.
Qed.

Lemma vapor_pressure_on_validated_values_witness :
  exists es ee,
    _calculate_vapor_pressure_standard 30 60 = Some es /\
    0.0065 < es < 350 /\
    _calculate_vapor_pressure_enhanced 30 60 1000 = Some ee /\
    0 <= ee < 370 /\
    (60 = 0 -> ee = 0).
Proof. apply (vapor_pressure_on_validated_values 30 60 1000); lra. Defined.

(** X4: on validated values, at a fixed humidity a higher temperature never
    lowers the humidex computed by the Standard method, and at a fixed
    temperature and humidity a higher pressure never lowers the humidex
    computed by the Enhanced method. *)
Theorem humidex_monotone_in_temperature_and_pressure
  (T1 T2 RH P1 P2 : R) :
  -50 <= T1 -> T1 <= T2 -> T2 <= 70 -> 0 <= RH <= 100 ->
  800 <= P1 -> P1 <= P2 -> P2 <= 1200 ->
  (exists s1 s2,
     humidex_of_values T1 RH None = Some (s1, "standard") /\
     humidex_of_values T2 RH None = Some (s2, "standard") /\
     s1 <= s2) /\
  (exists e1 e2,
     humidex_of_values T1 RH (Some P1) = Some (e1, "enhanced") /\
     humidex_of_values T1 RH (Some P2) = Some (e2, "enhanced") /\
     e1 <= e2).
Proof.
  intros H1 H12 H2 HRH HP1 HP12 HP2.
  rewrite !humidex_of_values_standard, !humidex_of_values_enhanced by lra.
  split; do 2 eexists;
    (split; [reflexivity |]; split; [reflexivity |]);
    unfold humidex_formula; apply round_mono.
  - assert (standard_vapor_pressure T1 RH <= standard_vapor_pressure T2 RH).
    { unfold standard_vapor_pressure.
      apply Rmult_le_compat_l; [lra |]. apply exp_le_mono.
      apply Rmult_le_compat_l; [lra |].
      apply Rplus_le_compat_l, Ropp_le_contravar.
      unfold Rdiv. rewrite !Rmult_1_l.
      apply Rinv_le_contravar; lra. }
    lra.
  - pose proof (exp_pos (17.27 * T1 / (T1 + 237.3))) as Hp.
    assert (enhanced_vapor_pressure T1 RH P1
            <= enhanced_vapor_pressure T1 RH P2).
    { unfold enhanced_vapor_pressure.
      apply Rmult_le_compat_l; [| lra].
      apply Rmult_le_pos; lra. }
    lra.
Qed.

Lemma humidex_monotone_in_temperature_and_pressure_witness :
  (exists s1 s2,
     humidex_of_values 20 50 None = Some (s1, "standard") /\
     humidex_of_values 30 50 None = Some (s2, "standard") /\
     s1 <= s2) /\
  (exists e1 e2,
     humidex_of_values 20 50 (Some 900) = Some (e1, "enhanced") /\
     humidex_of_values 20 50 (Some 1000) = Some (e2, "enhanced") /\
     e1 <= e2).
Proof.
  apply (humidex_monotone_in_temperature_and_pressure 20 30 50 900 1000); lra.
Defined.

(** ** Effects of a cycle *)

Lemma drop_unavailable_pressure_log (self : HumidexSensor)
  (hass : HomeAssistant) :
  exists plog,
    drop_unavailable_pressure self (fetch_pressure_state self hass)
    = (usable_pressure_state self hass, plog) /\
    (plog = []
     \/ exists st,
          plog = [Log WARNING "Pressure entity '%s' is %s"
                    [AStr (default EmptyString (_pressure_entity_id self));
                     AStr st]] /\
          Py.in_unavailable_unknown st = true).
Proof.
  unfold drop_unavailable_pressure, fetch_pressure_state,
    usable_pressure_state, usable_state.
  destruct (_pressure_entity_id self) as [id |]; simpl; [| eauto].
  destruct (Py.truthy_str id) eqn:Hid; simpl; [| eauto].
  destruct (states hass !! id) as [ps |]; simpl; [| eauto].
  destruct (Py.in_unavailable_unknown (state ps)) eqn:Hu; eauto 6.
Qed.

Lemma evaluate_values_shape (self : HumidexSensor) (ts : State)
  (log : list Effect) (raw RH : R) (P : option R) :
  exists self' e,
    evaluate_values self ts log raw RH P
    = (self', log ++ [e; async_write_ha_state]) /\
    is_log e = true /\ is_error e = false.
Proof.
  set (T := _convert_temperature_to_celsius raw
              (default UnitOfTemperature.CELSIUS
                 (attributes ts !! "unit_of_measurement"))).
  destruct (validate_verdict T RH P) as [(HT & HRH & HP) | Hout].
  - destruct (evaluate_values_published self ts log raw RH P HT HRH HP)
      as (v & m & dbg & _ & -> & Hm).
    exists (set_value self v), dbg. split; [reflexivity |].
    destruct dbg as [[] fmt args |]; simpl in Hm; try discriminate;
      now split.
  - destruct (evaluate_values_rejected self ts log raw RH P Hout)
      as (fmt & args & ->).
    eexists _, _. split; [reflexivity |]. now split.
Qed.

Section CycleEffects.

Variable py_float : string -> option R.

(** X5: every cycle writes the state exactly once, as its last effect, after
    one or two log records. *)
Theorem cycle_writes_state_once (self : HumidexSensor) (hass : HomeAssistant) :
  exists logs,
    snd (_async_update_humidex py_float self hass)
    = logs ++ [async_write_ha_state] /\
    forallb is_log logs = true /\
    (1 <= length logs <= 2)%nat.
Proof.
  unfold _async_update_humidex, mark_unavailable.
  destruct (drop_unavailable_pressure_log self hass) as (plog & -> & Hplog).
  assert (forallb is_log plog = true /\ (length plog <= 1)%nat) as [Hl Hn].
  { destruct Hplog as [-> | (st & -> & _)]; simpl; split; lia || reflexivity. }
  repeat case_match; simpl;
    try (eexists [_]; split; [reflexivity |]; simpl;
         split; [reflexivity | lia]);
    try (eexists (plog ++ [_]); rewrite <- !app_assoc;
         split; [reflexivity |];
         rewrite forallb_app, length_app; simpl; rewrite Hl;
         split; [reflexivity | lia]).
  match goal with
  | |- context [evaluate_values ?a ?b ?c ?d ?e ?f] =>
      destruct (evaluate_values_shape a b c d e f)
        as (self' & e' & -> & He & _)
  end.
  simpl. exists (plog ++ [e']). rewrite <- app_assoc.
  split; [reflexivity |].
  rewrite forallb_app, length_app. simpl. rewrite Hl, He.
  split; [reflexivity | lia].
Qed.

End CycleEffects.

Section CycleErrors.

Variable py_float : string -> option R.

Lemma parse_values_none (ts hs : State) (ops : option State) :
  (forall ps, ops = Some ps -> Py.in_unavailable_unknown (state ps) = false) ->
  parse_values py_float ts hs ops = None <->
  py_float (state ts) = None \/ py_float (state hs) = None \/
  exists ps, ops = Some ps /\ py_float (state ps) = None.
Proof.
  intros Hu. unfold parse_values.
  destruct (py_float (state ts)) as [raw |]; simpl; [| tauto].
  destruct (py_float (state hs)) as [RH |]; simpl; [| tauto].
  destruct ops as [ps |]; simpl.
  - rewrite (Hu ps eq_refl). simpl.
    destruct (py_float (state ps)) as [p |] eqn:Hp; simpl.
    + split; [discriminate |].
      intros [H | [H | (ps' & [= <-] & H)]]; congruence.
    + split; [eauto 6 | reflexivity].
  - split; [discriminate |].
    intros [H | [H | (ps' & H & _)]]; discriminate.
Qed.

Lemma existsb_error_warnings (logs : list Effect) :
  forallb is_warning logs = true -> existsb is_error logs = false.
Proof.
  induction logs as [| e logs IH]; simpl; [reflexivity |].
  intros H. apply andb_true_iff in H as [He Hl].
  rewrite (IH Hl). destruct e as [[] fmt args |]; try discriminate; reflexivity.
Qed.

(** The error records of a cycle. *)
Lemma cycle_error_characterised (self : HumidexSensor) (hass : HomeAssistant) :
  let effects := snd (_async_update_humidex py_float self hass) in
  (existsb is_error effects = true <->
   exists ts hs,
     usable_state hass (_temp_entity_id self) = Some ts /\
     usable_state hass (_humidity_entity_id self) = Some hs /\
     (py_float (state ts) = None \/ py_float (state hs) = None \/
      exists ps, usable_pressure_state self hass = Some ps /\
                 py_float (state ps) = None)) /\
  (forall fmt args,
     In (Log ERROR fmt args) effects ->
     fmt = "Invalid numeric values: temp=%s, humidity=%s, pressure=%s (%s)").
Proof.
  unfold _async_update_humidex, mark_unavailable, usable_state.
  destruct (drop_unavailable_pressure_usable self hass) as (plog & -> & Hplog).
  pose proof (existsb_error_warnings plog Hplog) as Hperr.
  assert (forall fmt args, ~ In (Log ERROR fmt args) plog) as Hpin.
  { intros fmt args Hin.
    assert (existsb is_error plog = true); [| congruence].
    apply existsb_exists. eauto. }
  pose proof (usable_pressure_state_usable self hass) as Hps.
  destruct (states hass !! _temp_entity_id self) as [ts |]; simpl.
  2:{ split.
      - split; [discriminate | intros (? & ? & H & _); discriminate].
      - intros fmt args [H | [H | []]]; discriminate. }
  destruct (states hass !! _humidity_entity_id self) as [hs |]; simpl.
  2:{ split.
      - split; [discriminate | intros (? & ? & _ & H & _); discriminate].
      - intros fmt args [H | [H | []]]; discriminate. }
  destruct (Py.in_unavailable_unknown (state ts)); simpl.
  { split.
    - split; [discriminate | intros (? & ? & H & _); discriminate].
    - intros fmt args [H | [H | []]]; discriminate. }
  destruct (Py.in_unavailable_unknown (state hs)); simpl.
  { split.
    - split; [discriminate | intros (? & ? & _ & H & _); discriminate].
    - intros fmt args [H | [H | []]]; discriminate. }
  pose proof (parse_values_none ts hs (usable_pressure_state self hass) Hps)
    as Hnone.
  destruct (parse_values py_float ts hs (usable_pressure_state self hass))
    as [[[raw RH] P] |].
  - destruct (evaluate_values_shape self ts plog raw RH P)
      as (self' & e & -> & _ & He). simpl.
    rewrite existsb_app. simpl. rewrite Hperr, He. simpl. split.
    + split; [discriminate |].
      intros (ts' & hs' & [= <-] & [= <-] & H).
      apply Hnone in H. discriminate.
    + intros fmt args Hin. apply in_app_or in Hin as [Hin | [Hin | [Hin | []]]].
      * now apply Hpin in Hin.
      * subst e. discriminate.
      * discriminate.
  - simpl. rewrite !existsb_app. simpl. rewrite Hperr. simpl. split.
    + split; [intros _ | reflexivity].
      exists ts, hs. split; [reflexivity |]. split; [reflexivity |].
      now apply Hnone.
    + intros fmt args Hin.
      apply in_app_or in Hin as [Hin | [Hin | []]]; [| discriminate].
      apply in_app_or in Hin as [Hin | [Hin | []]].
      * now apply Hpin in Hin.
      * now injection Hin as <- _.
Qed.

(** X6: a cycle logs at error level exactly when temperature and humidity
    are present and neither unavailable nor unknown, and the state of one of
    them, or of a usable pressure entity, is not numeric; the record is then
    the one of the numeric check, so the handler of unexpected exceptions
    ("Error calculating humidex") is never reached. *)
Theorem cycle_error_log (self : HumidexSensor) (hass : HomeAssistant) :
  let effects := snd (_async_update_humidex py_float self hass) in
  (existsb is_error effects = true <->
   exists ts hs,
     usable_state hass (_temp_entity_id self) = Some ts /\
     usable_state hass (_humidity_entity_id self) = Some hs /\
     (py_float (state ts) = None \/ py_float (state hs) = None \/
      exists ps, usable_pressure_state self hass = Some ps /\
                 py_float (state ps) = None)) /\
  (forall fmt args,
     In (Log ERROR fmt args) effects ->
     fmt = "Invalid numeric values: temp=%s, humidity=%s, pressure=%s (%s)").
Proof. exact (cycle_error_characterised self hass). Qed.

End CycleErrors.

Section CycleState.

Variable py_float : string -> option R.

Lemma update_fst_cases (self : HumidexSensor) (hass : HomeAssistant) :
  (exists v, fst (_async_update_humidex py_float self hass) = set_value self v)
  \/ fst (_async_update_humidex py_float self hass) = set_unavailable self.
Proof.
  destruct (update_cases py_float self hass)
    as [(T & RH & v & m & _ & _ & _ & _ & Hfst & _) | (_ & Hfst & _)]; eauto.
Qed.

(** X7: a cycle reads neither the stored value nor the stored availability:
    two sensors with the same bindings and translations end a cycle over the
    same states as the same sensor with the same effects. In particular a
    second cycle over unchanged states reproduces the first, and a cycle
    never changes the bindings or the cached translations. *)
Theorem cycle_ignores_previous_result (self : HumidexSensor)
  (hass : HomeAssistant) :
  (forall v a,
     _async_update_humidex py_float
       (mkSensor (_temp_entity_id self) (_humidity_entity_id self)
          (_pressure_entity_id self) v a (_translations self)) hass
     = _async_update_humidex py_float self hass) /\
  _async_update_humidex py_float
    (fst (_async_update_humidex py_float self hass)) hass
  = _async_update_humidex py_float self hass /\
  (let self' := fst (_async_update_humidex py_float self hass) in
   _temp_entity_id self' = _temp_entity_id self /\
   _humidity_entity_id self' = _humidity_entity_id self /\
   _pressure_entity_id self' = _pressure_entity_id self /\
   _translations self' = _translations self).
Proof.
  assert (forall v a,
            _async_update_humidex py_float
              (mkSensor (_temp_entity_id self) (_humidity_entity_id self)
                 (_pressure_entity_id self) v a (_translations self)) hass
            = _async_update_humidex py_float self hass) as Hind.
  { intros v a. destruct self as [t h p v0 a0 tr]. reflexivity. }
  split; [exact Hind |]. split.
  - destruct (update_fst_cases self hass) as [[v ->] | ->]; apply Hind.
  - destruct (update_fst_cases self hass) as [[v ->] | ->]; now simpl.
Qed.

(** X8: the entities a sensor subscribes to when it is added are all a cycle
    reads: two snapshots of the state machine that agree on them give the
    same cycle. *)
Theorem tracked_entities_determine_cycle (self : HumidexSensor)
  (hass0 hass hass' : HomeAssistant) (fetched : gmap string string) :
  let added := async_added_to_hass py_float self hass0 fetched in
  (forall id, In id (snd (fst added)) ->
     states hass !! id = states hass' !! id) ->
  _async_update_humidex py_float (fst (fst added)) hass
  = _async_update_humidex py_float (fst (fst added)) hass'.
Proof.
  unfold async_added_to_hass.
  destruct (_get_translations self fetched) as [self1 tr] eqn:Htr.
  destruct (_async_update_humidex py_float self1 hass0) as [self2 effects] eqn:Hc.
  cbn [fst snd]. intros Hagree.
  assert (entities_to_track self2 = entities_to_track self1) as Htrack.
  { pose proof (update_fst_cases self1 hass0) as Hfst. rewrite Hc in Hfst.
    destruct Hfst as [[v Hfst] | Hfst]; simpl in Hfst; now subst self2. }
  rewrite <- Htrack in Hagree. unfold entities_to_track in Hagree.
  unfold _async_update_humidex, fetch_pressure_state.
  rewrite <- (Hagree (_temp_entity_id self2)) by (simpl; tauto).
  rewrite <- (Hagree (_humidity_entity_id self2)) by (simpl; tauto).
  destruct (_pressure_entity_id self2) as [id |]; [| reflexivity].
  destruct (Py.truthy_str id); [| reflexivity].
  rewrite <- (Hagree id) by (simpl; tauto). reflexivity.
Qed.

(** X9: when the temperature and humidity entities both exist and one of
    them is unavailable or unknown, the cycle marks the sensor unavailable
    and logs one warning naming the entity and its state, the temperature
    entity when both are. *)
Theorem unavailable_source (self : HumidexSensor) (hass : HomeAssistant)
  (ts hs : State) :
  states hass !! _temp_entity_id self = Some ts ->
  states hass !! _humidity_entity_id self = Some hs ->
  Py.in_unavailable_unknown (state ts) = true
  \/ Py.in_unavailable_unknown (state hs) = true ->
  _async_update_humidex py_float self hass
  = (set_unavailable self,
     [if Py.in_unavailable_unknown (state ts)
      then Log WARNING "Temperature entity '%s' is %s"
             [AStr (_temp_entity_id self); AStr (state ts)]
      else Log WARNING "Humidity entity '%s' is %s"
             [AStr (_humidity_entity_id self); AStr (state hs)];
      async_write_ha_state]).
Proof.
  intros Hts Hhs Hu. unfold _async_update_humidex. rewrite Hts, Hhs.
  destruct (Py.in_unavailable_unknown (state ts)); [reflexivity |].
  destruct Hu as [Hu | ->]; [discriminate | reflexivity].
Qed.

Lemma evaluate_values_log_prefix (self self' : HumidexSensor) (ts : State)
  (log : list Effect) (raw RH : R) (P : option R) :
  let r := evaluate_values self ts log raw RH P in
  let r' := evaluate_values self' ts [] raw RH P in
  snd r = log ++ snd r' /\
  _attr_native_value (fst r) = _attr_native_value (fst r') /\
  _attr_available (fst r) = _attr_available (fst r').
Proof.
  unfold evaluate_values, mark_unavailable.
  destruct (_validate_sensor_values _ RH P) as [[] logs]; simpl.
  - destruct (humidex_of_values _ RH P) as [[v m] |]; simpl; repeat split.
  - rewrite <- app_assoc. repeat split.
Qed.

(** X10: when the bound pressure entity is unavailable or unknown, the
    cycle stores the value and availability of the sensor without a pressure
    binding; its effects are those of that sensor, preceded by one warning
    about the pressure entity exactly when temperature and humidity are both
    present and neither unavailable nor unknown. *)
Theorem unavailable_pressure_is_dropped (self : HumidexSensor)
  (hass : HomeAssistant) (id : string) (ps : State) :
  _pressure_entity_id self = Some id ->
  Py.truthy_str id = true ->
  states hass !! id = Some ps ->
  Py.in_unavailable_unknown (state ps) = true ->
  let cycle := _async_update_humidex py_float self hass in
  let cycle' := _async_update_humidex py_float (without_pressure self) hass in
  _attr_native_value (fst cycle) = _attr_native_value (fst cycle') /\
  _attr_available (fst cycle) = _attr_available (fst cycle') /\
  snd cycle
  = match usable_state hass (_temp_entity_id self),
          usable_state hass (_humidity_entity_id self) with
    | Some _, Some _ =>
        Log WARNING "Pressure entity '%s' is %s" [AStr id; AStr (state ps)]
        :: snd cycle'
    | _, _ => snd cycle'
    end.
Proof.
  intros Hid Htruthy Hps Hu.
  unfold _async_update_humidex, fetch_pressure_state, mark_unavailable,
    usable_state.
  rewrite Hid, Htruthy, Hps. simpl.
  destruct (states hass !! _temp_entity_id self) as [ts |]; simpl; [| auto].
  destruct (states hass !! _humidity_entity_id self) as [hs |]; simpl.
  2:{ destruct (Py.in_unavailable_unknown (state ts)); auto. }
  destruct (Py.in_unavailable_unknown (state ts)); [auto |].
  destruct (Py.in_unavailable_unknown (state hs)); [auto |].
  unfold Py.truthy. rewrite Hid, Htruthy, Hu. simpl.
  destruct (parse_values py_float ts hs None) as [[[raw RH] P] |].
  - destruct (evaluate_values_log_prefix self (without_pressure self) ts
                [Log WARNING "Pressure entity '%s' is %s"
                   [AStr id; AStr (state ps)]] raw RH P)
      as (Hsnd & Hv & Ha).
    rewrite Hsnd, Hv, Ha. auto.
  - simpl. auto.
Qed.

End CycleState.

Lemma tracked_entities_determine_cycle_witness :
  let added := async_added_to_hass float_literal sensor_th (mkHass ∅) ∅ in
  _async_update_humidex float_literal (fst (fst added)) (hass_th "30" "60")
  = _async_update_humidex float_literal (fst (fst added))
      (hass_thp "30" "60" "900").
Proof.
  apply (tracked_entities_determine_cycle float_literal sensor_th
           (mkHass ∅) (hass_th "30" "60") (hass_thp "30" "60" "900") ∅).
  intros id [<- | [<- | []]]; reflexivity.
Defined.

Lemma unavailable_source_witness :
  _async_update_humidex float_literal sensor_th (hass_th "unavailable" "60")
  = (set_unavailable sensor_th,
     [Log WARNING "Temperature entity '%s' is %s"
        [AStr "sensor.t"; AStr "unavailable"];
      async_write_ha_state]).
Proof.
  apply (unavailable_source float_literal sensor_th (hass_th "unavailable" "60")
           (reading_of "unavailable") (reading_of "60"));
    [reflexivity | reflexivity | left; reflexivity].
Defined.

Lemma unavailable_pressure_is_dropped_witness :
  snd (_async_update_humidex float_literal sensor_thp
         (hass_thp "30" "60" "unknown"))
  = Log WARNING "Pressure entity '%s' is %s" [AStr "sensor.p"; AStr "unknown"]
    :: snd (_async_update_humidex float_literal (without_pressure sensor_thp)
              (hass_thp "30" "60" "unknown")).
Proof.
  apply (unavailable_pressure_is_dropped float_literal sensor_thp
           (hass_thp "30" "60" "unknown") "sensor.p" (reading_of "unknown"));
    reflexivity.
Defined.

(** ** The published value and its attributes *)

Section PublishedValue.

Variable py_float : string -> option R.

(** X11: the value a cycle stores is a whole number of tenths and lies
    between the Celsius temperature it was computed from minus 5.7 and that
    temperature plus 201. *)
Theorem published_value_bounds (self : HumidexSensor) (hass : HomeAssistant)
  (v : R) :
  _attr_native_value (fst (_async_update_humidex py_float self hass)) = Some v ->
  exists T z,
    temperature_reading py_float self hass = Some T /\
    v = IZR z / 10 /\
    T - 5.7 <= v <= T + 201.
Proof.
  intros Hv.
  destruct (update_cases py_float self hass)
    as [(T & RH & v' & m & HT & HRH & Hok & Hh & Hfst & _) | (_ & Hfst & _)];
    rewrite Hfst in Hv; [| discriminate].
  injection Hv as ->.
  destruct Hok as [[(t & Ht & Htr) (h & Hhum & Hhr)] Hps].
  rewrite HT in Ht. injection Ht as <-.
  rewrite HRH in Hhum. injection Hhum as <-.
  exists T.
  assert (exists e, 0 <= e < 370 /\ v = humidex_formula T e) as (e & He & ->).
  { unfold pressure_reading in Hh.
    destruct (usable_pressure_state self hass) as [ps |]; simpl in Hh.
    - destruct (Hps ps eq_refl) as (P & HP & HPr). rewrite HP in Hh.
      rewrite humidex_of_values_enhanced in Hh by lra.
      injection Hh as <- _. eexists. split; [| reflexivity].
      now apply enhanced_vapor_pressure_range.
    - rewrite humidex_of_values_standard in Hh by lra.
      injection Hh as <- _. eexists. split; [| reflexivity].
      pose proof (standard_vapor_pressure_range T RH Htr Hhr). lra. }
  unfold humidex_formula.
  destruct (round_1_error (T + 0.5555 * (e - 10))) as (z & -> & Hz).
  exists z. split; [assumption |]. split; [reflexivity | lra].
Qed.

End PublishedValue.

Lemma published_value_bounds_witness :
  exists T z,
    temperature_reading float_literal sensor_th (hass_th "30" "60") = Some T /\
    39.3 = IZR z / 10 /\
    T - 5.7 <= 39.3 <= T + 201.
Proof.
  apply (published_value_bounds float_literal sensor_th (hass_th "30" "60")).
  now rewrite (proj1 scenario_a_cycle).
Defined.

(** The key a translation of the description is looked up under. *)
Lemma translation_key_of (level : string) :
  "component." +:+ DOMAIN
  +:+ ".entity.sensor.humidex.state_attributes.comfort_description."
  +:+ level
  = "component.humidex_sensor.entity.sensor.humidex.state_attributes.comfort_description."
    +:+ level.
Proof. reflexivity. Qed.

(** X12: the comfort description is the cached translation of the level
    when there is one and it is not empty, and otherwise the English text of
    the level (Cold, Comfortable, Slightly uncomfortable, Very
    uncomfortable, Dangerous); it is never the placeholder Unknown of the
    fallback lookup. *)
Theorem comfort_description_source (self : HumidexSensor) (humidex : R) :
  let level := _get_comfort_level humidex in
  let key :=
    "component.humidex_sensor.entity.sensor.humidex.state_attributes.comfort_description."
    +:+ level in
  exists english,
    fallback_descriptions !! level = Some english /\
    _get_comfort_description_sync self humidex
    = match _translations self ≫= (λ tr, tr !! key) with
      | Some t => if Py.truthy_str t then t else english
      | None => english
      end.
Proof.
  intros level key. unfold _get_comfort_description_sync.
  fold level. rewrite translation_key_of. fold key.
  assert (exists english, fallback_descriptions !! level = Some english)
    as (english & Hen).
  { subst level.
    destruct (comfort_level_cases humidex)
      as [[_ ->] | [[_ ->] | [[_ ->] | [[_ ->] | [_ ->]]]]];
      eexists; reflexivity. }
  exists english. split; [assumption |]. rewrite Hen. simpl.
  destruct (_translations self) as [tr |]; simpl; [| reflexivity].
  destruct (bool_decide (tr = ∅)) eqn:Hempty; [| reflexivity].
  apply bool_decide_eq_true in Hempty. subst tr.
  now rewrite lookup_empty.
Qed.

(** The entity attributes give back the bindings. *)
Lemma attr_entities (self : HumidexSensor) :
  let attrs := extra_state_attributes self in
  attrs !! "temperature_entity" = Some (_temp_entity_id self) /\
  attrs !! "humidity_entity" = Some (_humidity_entity_id self) /\
  attrs !! "pressure_entity"
  = (if Py.truthy (_pressure_entity_id self)
     then _pressure_entity_id self else None).
Proof.
  unfold extra_state_attributes, Py.truthy.
  destruct (_attr_native_value self) as [v |];
    destruct (_pressure_entity_id self) as [id |];
    try destruct (Py.truthy_str id); simpl;
    repeat split;
    repeat (rewrite lookup_insert_ne by discriminate);
    first [ now rewrite lookup_insert_eq | now rewrite lookup_empty ].
Qed.

(** X13: the published attributes are the two source entities and the
    calculation method, the pressure entity when one is bound, and the
    comfort level and description when a value is stored; no other key is
    published. *)
Theorem extra_state_attributes_keys (self : HumidexSensor) :
  let attrs := extra_state_attributes self in
  dom attrs
  = ({["temperature_entity"; "humidity_entity"; "calculation_method"]}
     ∪ (if Py.truthy (_pressure_entity_id self)
        then {["pressure_entity"]} else ∅)
     ∪ match _attr_native_value self with
       | Some _ => {["comfort_level"; "comfort_description"]}
       | None => ∅
       end : gset string)
  /\ attrs !! "temperature_entity" = Some (_temp_entity_id self)
  /\ attrs !! "humidity_entity" = Some (_humidity_entity_id self)
  /\ attrs !! "pressure_entity"
     = (if Py.truthy (_pressure_entity_id self)
        then _pressure_entity_id self else None)
  /\ attrs !! "comfort_description"
     = _get_comfort_description_sync self <$> _attr_native_value self.
Proof.
  unfold extra_state_attributes, Py.truthy.
  destruct (_attr_native_value self) as [v |];
    destruct (_pressure_entity_id self) as [id |];
    try destruct (Py.truthy_str id); simpl;
    (split; [rewrite !dom_insert_L, dom_empty_L; set_solver |]);
    repeat split;
    repeat (rewrite lookup_insert_ne by discriminate);
    first [ now rewrite lookup_insert_eq | now rewrite lookup_empty ].
Qed.

(** ** Setup *)

(** X14: the setup fails with a [KeyError] exactly when the entry has no
    temperature or no humidity entity, the temperature key being reported
    first; otherwise it adds one sensor, to be updated before it is added,
    with no value yet, named from the entry (Humidex by default), whose id
    is the entry id followed by [_humidex] and whose published attributes
    give back the configured entities, the pressure entity only when it is
    not empty. *)
Theorem setup_entry_outcome (config_entry : ConfigEntry) :
  let config := data config_entry in
  let outcome := snd (async_setup_entry config_entry) in
  (config !! ATTR_TEMPERATURE = None ->
   outcome = inl (KeyError ATTR_TEMPERATURE)) /\
  (is_Some (config !! ATTR_TEMPERATURE) -> config !! ATTR_HUMIDITY = None ->
   outcome = inl (KeyError ATTR_HUMIDITY)) /\
  (is_Some (config !! ATTR_TEMPERATURE) -> is_Some (config !! ATTR_HUMIDITY) ->
   exists sensor attrs,
     outcome = inr ([(sensor, attrs)], true) /\
     _attr_native_value sensor = None /\
     _attr_name attrs = default DEFAULT_NAME (config !! CONF_NAME) /\
     _attr_unique_id attrs = entry_id config_entry +:+ "_humidex" /\
     extra_state_attributes sensor !! ATTR_TEMPERATURE
     = config !! ATTR_TEMPERATURE /\
     extra_state_attributes sensor !! ATTR_HUMIDITY
     = config !! ATTR_HUMIDITY /\
     extra_state_attributes sensor !! ATTR_PRESSURE
     = (if Py.truthy (config !! ATTR_PRESSURE)
        then config !! ATTR_PRESSURE else None)).
Proof.
  intros config outcome. subst outcome. unfold async_setup_entry. fold config.
  split; [intros -> ; reflexivity |].
  split; [intros [t ->] ->; reflexivity |].
  intros [t Ht] [h Hh]. rewrite Ht, Hh. simpl.
  eexists _, _. split; [reflexivity |].
  split; [reflexivity |]. split; [reflexivity |]. split; [reflexivity |].
  pose proof (attr_entities
                (mkSensor t h (config !! ATTR_PRESSURE) None true None))
    as (Htemp & Hhum & Hpress).
  simpl in Htemp, Hhum, Hpress.
  unfold ATTR_TEMPERATURE, ATTR_HUMIDITY, ATTR_PRESSURE in *.
  rewrite Htemp, Hhum, Hpress. repeat split.
Qed.

Lemma setup_entry_outcome_witness :
  snd (async_setup_entry (mkEntry "abc" ∅)) = inl (KeyError ATTR_TEMPERATURE).
Proof.
  apply (proj1 (setup_entry_outcome (mkEntry "abc" ∅))). reflexivity.
Defined.

(** ** The flows *)

Section FlowProperties.

Variable py_float : string -> option R.

(** The input the config flow accepts. *)
Lemma validate_input_accepts (hass : HomeAssistant)
  (user_input : gmap string string) :
  HumidexConfigFlow._validate_input py_float hass user_input = inr tt <->
  exists t h ts hs,
    user_input !! ATTR_TEMPERATURE = Some t /\
    user_input !! ATTR_HUMIDITY = Some h /\
    states hass !! t = Some ts /\
    states hass !! h = Some hs /\
    is_Some (py_float (state ts)) /\
    is_Some (py_float (state hs)) /\
    (forall p, user_input !! ATTR_PRESSURE = Some p ->
       Py.truthy_str p = true ->
       exists ps, states hass !! p = Some ps /\
                  is_Some (py_float (state ps))).
Proof.
  unfold HumidexConfigFlow._validate_input, HumidexConfigFlow.check_pressure.
  destruct (user_input !! ATTR_TEMPERATURE) as [t |];
    [| split; [discriminate | intros (? & ? & ? & ? & H & _); discriminate]].
  destruct (user_input !! ATTR_HUMIDITY) as [h |];
    [| split; [discriminate | intros (? & ? & ? & ? & _ & H & _); discriminate]].
  destruct (states hass !! t) as [ts |] eqn:Hts;
    [| split; [discriminate
              | intros (? & ? & ? & ? & [= <-] & _ & H & _); congruence]].
  destruct (states hass !! h) as [hs |] eqn:Hhs;
    [| split; [discriminate
              | intros (? & ? & ? & ? & _ & [= <-] & _ & H & _); congruence]].
  destruct (user_input !! ATTR_PRESSURE) as [p |].
  - destruct (Py.truthy_str p) eqn:Hp.
    + destruct (states hass !! p) as [ps |] eqn:Hps.
      * destruct (py_float (state ps)) as [x |] eqn:Hx.
        -- destruct (py_float (state ts)) as [x1 |] eqn:Hx1;
             [| split; [discriminate |];
                intros (? & ? & ? & ? & [= <-] & _ & Ht & _ & [? H] & _);
                congruence].
           destruct (py_float (state hs)) as [x2 |] eqn:Hx2;
             [| split; [discriminate |];
                intros (? & ? & ? & ? & _ & [= <-] & _ & Hh & _ & [? H] & _);
                congruence].
           split; [intros _ | reflexivity].
           exists t, h, ts, hs. repeat split; eauto.
           intros p' [= <-] _. exists ps. split; [assumption | eauto].
        -- split; [discriminate |].
           intros (? & ? & ? & ? & _ & _ & _ & _ & _ & _ & H).
           destruct (H p eq_refl Hp) as (ps' & Hps' & [? Hn]). congruence.
      * split; [discriminate |].
        intros (? & ? & ? & ? & _ & _ & _ & _ & _ & _ & H).
        destruct (H p eq_refl Hp) as (ps' & Hps' & _). congruence.
    + destruct (py_float (state ts)) as [x1 |] eqn:Hx1;
        [| split; [discriminate |];
           intros (? & ? & ? & ? & [= <-] & _ & Ht & _ & [? H] & _);
           congruence].
      destruct (py_float (state hs)) as [x2 |] eqn:Hx2;
        [| split; [discriminate |];
           intros (? & ? & ? & ? & _ & [= <-] & _ & Hh & _ & [? H] & _);
           congruence].
      split; [intros _ | reflexivity].
      exists t, h, ts, hs. repeat split; eauto.
      intros p' [= <-] Hp'. congruence.
  - destruct (py_float (state ts)) as [x1 |] eqn:Hx1;
      [| split; [discriminate |];
         intros (? & ? & ? & ? & [= <-] & _ & Ht & _ & [? H] & _);
         congruence].
    destruct (py_float (state hs)) as [x2 |] eqn:Hx2;
      [| split; [discriminate |];
         intros (? & ? & ? & ? & _ & [= <-] & _ & Hh & _ & [? H] & _);
         congruence].
    split; [intros _ | reflexivity].
    exists t, h, ts, hs. repeat split; eauto. discriminate.
Qed.

End FlowProperties.

Section FlowOutcomes.

Variable py_float : string -> option R.

Lemma check_pressure_invalid (hass : HomeAssistant) (p : option string)
  (e : Exception) :
  HumidexConfigFlow.check_pressure py_float hass p = inl e ->
  exists msg, e = Invalid msg.
Proof.
  unfold HumidexConfigFlow.check_pressure.
  repeat case_match; intros [= <-]; eauto.
Qed.

(** X15: the config flow accepts an input exactly when it names a
    temperature and a humidity entity that exist and have numeric states,
    and its pressure entity, when one is given and not empty, exists and has
    a numeric state; with both required keys present a rejection is a
    [vol.Invalid], never another exception. *)
Theorem validate_input_verdict (hass : HomeAssistant)
  (user_input : gmap string string) :
  (HumidexConfigFlow._validate_input py_float hass user_input = inr tt <->
   exists t h ts hs,
     user_input !! ATTR_TEMPERATURE = Some t /\
     user_input !! ATTR_HUMIDITY = Some h /\
     states hass !! t = Some ts /\
     states hass !! h = Some hs /\
     is_Some (py_float (state ts)) /\
     is_Some (py_float (state hs)) /\
     (forall p, user_input !! ATTR_PRESSURE = Some p ->
        Py.truthy_str p = true ->
        exists ps, states hass !! p = Some ps /\
                   is_Some (py_float (state ps)))) /\
  (forall k,
     HumidexConfigFlow._validate_input py_float hass user_input
     = inl (KeyError k) ->
     (k = ATTR_TEMPERATURE \/ k = ATTR_HUMIDITY) /\ user_input !! k = None).
Proof.
  split; [apply validate_input_accepts |].
  unfold HumidexConfigFlow._validate_input.
  intros k.
  destruct (user_input !! ATTR_TEMPERATURE) as [t |] eqn:Ht;
    [| intros [= <-]; auto].
  destruct (user_input !! ATTR_HUMIDITY) as [h |] eqn:Hh;
    [| intros [= <-]; auto].
  destruct (states hass !! t) as [ts |]; [| discriminate].
  destruct (states hass !! h) as [hs |]; [| discriminate].
  destruct (HumidexConfigFlow.check_pressure py_float hass
              (user_input !! ATTR_PRESSURE)) as [e | []] eqn:Hc.
  - intros [= ->]. apply check_pressure_invalid in Hc as [msg Hc].
    discriminate Hc.
  - destruct (py_float (state ts)); [| discriminate].
    destruct (py_float (state hs)); discriminate.
Qed.

(** X16: the user step creates an entry exactly when the input passes the
    validation, with the input unchanged as data and its name (Humidex by
    default) as title; any other input shows the user form again with one
    error under [base]: [invalid_entity] when the validation rejected it,
    [unknown], with a logged exception, when a required key is missing. *)
Theorem step_user_outcome (hass : HomeAssistant)
  (user_input : gmap string string) :
  let verdict := HumidexConfigFlow._validate_input py_float hass user_input in
  let result :=
    HumidexConfigFlow.async_step_user py_float hass (Some user_input) in
  (verdict = inr tt ->
   result
   = (async_create_entry (default DEFAULT_NAME (user_input !! CONF_NAME))
        user_input, [])) /\
  (forall msg, verdict = inl (Invalid msg) ->
     result
     = (async_show_form "user" HumidexConfigFlow.data_schema
          {[ "base" := "invalid_entity" ]}, [])) /\
  (forall k, verdict = inl (KeyError k) ->
     result
     = (async_show_form "user" HumidexConfigFlow.data_schema
          {[ "base" := "unknown" ]},
        [LogException "Unexpected exception: %s" (KeyError k)])) /\
  (forall title d logs,
     result = (async_create_entry title d, logs) ->
     verdict = inr tt /\ d = user_input).
Proof.
  intros verdict result. subst result verdict.
  unfold HumidexConfigFlow.async_step_user.
  destruct (HumidexConfigFlow._validate_input py_float hass user_input)
    as [[k | msg] | []].
  - split; [discriminate |]. split; [discriminate |].
    split; [intros k' [= <-]; reflexivity | discriminate].
  - split; [discriminate |]. split; [reflexivity |].
    split; discriminate.
  - split; [reflexivity |]. split; [discriminate |]. split; [discriminate |].
    intros title d logs [= _ <- _]. now split.
Qed.

(** The input the options flow accepts. *)
Lemma check_entities_accepts (hass : HomeAssistant)
  (user_input : gmap string string) :
  OptionsFlowHandler.check_entities hass user_input
  = inr (inl (async_create_entry EmptyString user_input)) <->
  exists t h,
    user_input !! ATTR_TEMPERATURE = Some t /\
    user_input !! ATTR_HUMIDITY = Some h /\
    is_Some (states hass !! t) /\
    is_Some (states hass !! h) /\
    (forall p, user_input !! ATTR_PRESSURE = Some p ->
       Py.truthy_str p = true -> is_Some (states hass !! p)).
Proof.
  unfold OptionsFlowHandler.check_entities.
  destruct (user_input !! ATTR_TEMPERATURE) as [t |];
    [| split; [discriminate | intros (? & ? & H & _); discriminate]].
  destruct (user_input !! ATTR_HUMIDITY) as [h |];
    [| split; [discriminate | intros (? & ? & _ & H & _); discriminate]].
  destruct (states hass !! t) as [ts |] eqn:Hts; simpl.
  2:{ split; [discriminate |].
      intros (? & ? & [= <-] & _ & [? H] & _). congruence. }
  destruct (states hass !! h) as [hs |] eqn:Hhs; simpl.
  2:{ split; [discriminate |].
      intros (? & ? & _ & [= <-] & _ & [? H] & _). congruence. }
  destruct (user_input !! ATTR_PRESSURE) as [p |]; simpl.
  - destruct (Py.truthy_str p) eqn:Hp; simpl.
    + destruct (states hass !! p) as [ps |] eqn:Hps; simpl.
      * split; [intros _ | reflexivity].
        exists t, h. repeat split; eauto. intros p' [= <-] _. eauto.
      * split; [discriminate |].
        intros (? & ? & _ & _ & _ & _ & H).
        destruct (H p eq_refl Hp) as [? Hn]. congruence.
    + split; [intros _ | reflexivity].
      exists t, h. repeat split; eauto. intros p' [= <-]. congruence.
  - split; [intros _ | reflexivity].
    exists t, h. repeat split; eauto. discriminate.
Qed.

(** X17: the options flow stores the input unchanged, under an empty title,
    exactly when the temperature and humidity entities it names exist and
    its pressure entity, when given and not empty, exists; it does not ask
    for numeric states, and it accepts every input the config flow
    accepts. *)
Theorem options_flow_accepts (config_entry : ConfigEntry)
  (hass : HomeAssistant) (user_input : gmap string string) :
  let result :=
    OptionsFlowHandler.async_step_init config_entry hass (Some user_input) in
  (result = (async_create_entry EmptyString user_input, []) <->
   exists t h,
     user_input !! ATTR_TEMPERATURE = Some t /\
     user_input !! ATTR_HUMIDITY = Some h /\
     is_Some (states hass !! t) /\
     is_Some (states hass !! h) /\
     (forall p, user_input !! ATTR_PRESSURE = Some p ->
        Py.truthy_str p = true -> is_Some (states hass !! p))) /\
  (HumidexConfigFlow._validate_input py_float hass user_input = inr tt ->
   result = (async_create_entry EmptyString user_input, [])).
Proof.
  intros result.
  assert (result = (async_create_entry EmptyString user_input, []) <->
          OptionsFlowHandler.check_entities hass user_input
          = inr (inl (async_create_entry EmptyString user_input))) as Hres.
  { subst result. unfold OptionsFlowHandler.async_step_init.
    destruct (OptionsFlowHandler.check_entities hass user_input)
      as [exc | [entry | error]] eqn:Hc.
    - split; discriminate.
    - split; [intros [= ->]; reflexivity | intros [= ->]; reflexivity].
    - split; discriminate. }
  split.
  - rewrite Hres. apply check_entities_accepts.
  - intros Hv. apply Hres, check_entities_accepts.
    apply validate_input_accepts in Hv
      as (t & h & ts & hs & Ht & Hh & Hts & Hhs & _ & _ & Hp).
    exists t, h. repeat split; eauto.
    intros p Hin Htr. destruct (Hp p Hin Htr) as (ps & -> & _). eauto.
Qed.

End FlowOutcomes.

(** An input with a word as temperature state passes the options flow. *)
Lemma options_flow_accepts_witness :
  let user_input : gmap string string :=
    <[ATTR_HUMIDITY := "sensor.h"]> (<[ATTR_TEMPERATURE := "sensor.t"]> ∅) in
  OptionsFlowHandler.async_step_init (mkEntry "abc" ∅) (hass_th "warm" "60")
    (Some user_input)
  = (async_create_entry EmptyString user_input, []).
Proof.
  intros user_input.
  apply (proj1 (options_flow_accepts float_literal (mkEntry "abc" ∅)
                  (hass_th "warm" "60") user_input)).
  exists "sensor.t", "sensor.h".
  split; [reflexivity |]. split; [reflexivity |].
  split; [eexists; reflexivity |]. split; [eexists; reflexivity |].
  intros p Hp. discriminate Hp.
Defined.

(** An accepted input gives the entry of the user step. *)
Lemma step_user_outcome_witness :
  let user_input : gmap string string :=
    <[ATTR_HUMIDITY := "sensor.h"]> (<[ATTR_TEMPERATURE := "sensor.t"]> ∅) in
  HumidexConfigFlow.async_step_user float_literal (hass_th "30" "60")
    (Some user_input)
  = (async_create_entry "Humidex" user_input, []).
Proof.
  intros user_input.
  apply (proj1 (step_user_outcome float_literal (hass_th "30" "60")
                  user_input)).
  reflexivity.
Defined.

(** ** From the config flow to the first cycle *)

Lemma in_unavailable_unknown_true (s : string) :
  Py.in_unavailable_unknown s = true -> s = "unavailable" \/ s = "unknown".
Proof.
  unfold Py.in_unavailable_unknown. intros H.
  apply orb_true_iff in H as [H | H]; apply String.eqb_eq in H; auto.
Qed.

Section FlowToCycle.

Variable py_float : string -> option R.

Hypothesis float_unavailable : py_float "unavailable" = None.
Hypothesis float_unknown : py_float "unknown" = None.

Lemma numeric_state_usable (hass : HomeAssistant) (id : string) (s : State) :
  states hass !! id = Some s -> is_Some (py_float (state s)) ->
  usable_state hass id = Some s.
Proof.
  intros Hs [x Hx]. apply usable_state_inv. split; [assumption |].
  destruct (Py.in_unavailable_unknown (state s)) eqn:Hu; [| reflexivity].
  apply in_unavailable_unknown_true in Hu as [Hu | Hu];
    rewrite Hu in Hx; congruence.
Qed.

(** X18: when [float] rejects the words unavailable and unknown, an entry
    whose data the config flow accepts sets up one sensor whose first cycle
    over the same states finds temperature and humidity numeric, logs no
    error, and is available exactly when the temperature in Celsius is in
    [-50, 70], the humidity in [0, 100] and the pressure, when one
    contributes, in [800, 1200]. *)
Theorem accepted_entry_first_cycle (hass : HomeAssistant)
  (config_entry : ConfigEntry) :
  HumidexConfigFlow._validate_input py_float hass (data config_entry)
  = inr tt ->
  exists sensor attrs T RH,
    snd (async_setup_entry config_entry) = inr ([(sensor, attrs)], true) /\
    temperature_reading py_float sensor hass = Some T /\
    humidity_reading py_float sensor hass = Some RH /\
    existsb is_error (snd (_async_update_humidex py_float sensor hass))
    = false /\
    (_attr_available (fst (_async_update_humidex py_float sensor hass)) = true
     <-> -50 <= T <= 70 /\ 0 <= RH <= 100 /\
         (forall P, pressure_reading py_float sensor hass = Some P ->
            800 <= P <= 1200)).
Proof.
  intros Hv.
  apply validate_input_accepts in Hv
    as (t & h & ts & hs & Ht & Hh & Hts & Hhs & Hnt & Hnh & Hp).
  pose proof (numeric_state_usable hass t ts Hts Hnt) as Hut.
  pose proof (numeric_state_usable hass h hs Hhs Hnh) as Huh.
  destruct Hnt as [raw Hraw]. destruct Hnh as [RH HRH].
  set (sensor := mkSensor t h (data config_entry !! ATTR_PRESSURE)
                   None true None).
  assert (forall ps, usable_pressure_state sensor hass = Some ps ->
            is_Some (py_float (state ps))) as Hnp.
  { intros ps. unfold usable_pressure_state. simpl.
    destruct (data config_entry !! ATTR_PRESSURE) as [p |]; [| discriminate].
    destruct (Py.truthy_str p) eqn:Htr; [| discriminate].
    intros Hps. apply usable_state_inv in Hps as [Hps _].
    destruct (Hp p eq_refl Htr) as (ps' & Hps' & Hn). congruence. }
  set (T := _convert_temperature_to_celsius raw
              (default UnitOfTemperature.CELSIUS
                 (attributes ts !! "unit_of_measurement"))).
  assert (temperature_reading py_float sensor hass = Some T) as HT.
  { unfold temperature_reading. simpl. rewrite Hut. simpl.
    now rewrite Hraw. }
  assert (humidity_reading py_float sensor hass = Some RH) as HH.
  { unfold humidity_reading. simpl. rewrite Huh. simpl. assumption. }
  eexists sensor, _, T, RH.
  split; [unfold async_setup_entry; rewrite Ht, Hh; reflexivity |].
  split; [assumption |]. split; [assumption |]. split.
  - destruct (existsb is_error
                (snd (_async_update_humidex py_float sensor hass))) eqn:He;
      [| reflexivity].
    apply (proj1 (cycle_error_characterised py_float sensor hass)) in He
      as (ts' & hs' & Hts' & Hhs' & Hbad).
    simpl in Hts', Hhs'. rewrite Hut in Hts'. rewrite Huh in Hhs'.
    injection Hts' as <-. injection Hhs' as <-.
    destruct Hbad as [Hb | [Hb | (ps & Hps & Hb)]]; try congruence.
    destruct (Hnp ps Hps) as [x Hx]. congruence.
  - rewrite update_available_iff.
    unfold readings_ok, required_in_range, pressure_reading.
    rewrite HT, HH. split.
    + intros [[(t' & [= <-] & HTr) (h' & [= <-] & HRr)] Hpr].
      split; [assumption |]. split; [assumption |].
      intros P HP.
      destruct (usable_pressure_state sensor hass) as [ps |];
        [| discriminate].
      destruct (Hpr ps eq_refl) as (p & Hpp & Hrange).
      simpl in HP. congruence.
    + intros (HTr & HRr & Hpr).
      split; [split; eauto |].
      intros ps Hps. destruct (Hnp ps Hps) as [p Hpp].
      exists p. split; [assumption |].
      apply Hpr. rewrite Hps. simpl. assumption.
Qed.

End FlowToCycle.

(** The entry of the temperature and humidity entities alone, at 30 degrees
    and 60 percent. *)
Lemma accepted_entry_first_cycle_witness :
  exists sensor attrs T RH,
    snd (async_setup_entry
           (mkEntry "abc"
              (<[ATTR_HUMIDITY := "sensor.h"]>
                 (<[ATTR_TEMPERATURE := "sensor.t"]> ∅))))
    = inr ([(sensor, attrs)], true) /\
    temperature_reading float_literal sensor (hass_th "30" "60") = Some T /\
    humidity_reading float_literal sensor (hass_th "30" "60") = Some RH /\
    existsb is_error
      (snd (_async_update_humidex float_literal sensor (hass_th "30" "60")))
    = false /\
    (_attr_available
       (fst (_async_update_humidex float_literal sensor (hass_th "30" "60")))
     = true
     <-> -50 <= T <= 70 /\ 0 <= RH <= 100 /\
         (forall P,
            pressure_reading float_literal sensor (hass_th "30" "60") = Some P ->
            800 <= P <= 1200)).
Proof.
  apply (accepted_entry_first_cycle float_literal eq_refl eq_refl
           (hass_th "30" "60")
           (mkEntry "abc"
              (<[ATTR_HUMIDITY := "sensor.h"]>
                 (<[ATTR_TEMPERATURE := "sensor.t"]> ∅)))).
  reflexivity.
Defined.

(** ** The translation cache *)

(** X19: the translations are fetched once: a call on a sensor that already
    holds a table returns that table and leaves the sensor as it is, so a
    second call gives the result of the first whatever the host would
    answer then; loading never touches the bindings, the value or the
    availability. *)
Theorem translations_loaded_once (self : HumidexSensor)
  (fetched fetched' : gmap string string) :
  let '(self1, table) := _get_translations self fetched in
  _get_translations self1 fetched' = (self1, table) /\
  _translations self1 = Some table /\
  (table = fetched \/ _translations self = Some table) /\
  _temp_entity_id self1 = _temp_entity_id self /\
  _humidity_entity_id self1 = _humidity_entity_id self /\
  _pressure_entity_id self1 = _pressure_entity_id self /\
  _attr_native_value self1 = _attr_native_value self /\
  _attr_available self1 = _attr_available self.
Proof.
  unfold _get_translations.
  destruct (_translations self) as [t |] eqn:Htr; simpl.
  - rewrite Htr. repeat split; auto.
  - repeat split; auto.
Qed.
